(** * github-mcp: the tool dispatcher of [src/index.ts]

    A shallow embedding of the request handlers that [GithubServer]
    registers on the MCP server: the three resource handlers
    ([setupResourceHandlers]) and the two tool handlers
    ([setupToolHandlers]).  Handlers are [async] functions that await the
    axios instance; they are embedded as programs of a small monad whose
    only effect is one upstream HTTP exchange, and whose results are a
    returned value or a thrown exception.

    The arguments of a tool call are the JSON object of the request: the
    cast to [GithubToolArguments] checks nothing, so a field can hold any
    JSON value. *)

From Stdlib Require Import String Ascii List Bool NArith ZArith Lia DecimalString.
Import ListNotations.

Set Warnings "-register-all".

Local Open Scope list_scope.
Local Open Scope string_scope.

(** ** JavaScript values *)

(** A string is held as the bytes of its UTF-8 encoding, where a
    surrogate that has no partner keeps the three bytes that its code
    unit would have ([ED A0..BF 80..BF]), so that every JavaScript string
    has its own representation.  The handlers join strings only across
    ASCII text, where appending the bytes is appending the strings. *)

(** A parsed JSON document, as [response.data] and
    [request.params.arguments] hold it.  A number is kept as the decimal
    rendering that [Number.prototype.toString] gives, which is what both
    [JSON.stringify] and a template literal emit for it; zero is ["0"].
    The fields of an object are listed in property enumeration order,
    each key once. *)
Inductive json : Type :=
| JNull
| JBool (b : bool)
| JNum (rendering : string)
| JStr (s : string)
| JArr (items : list json)
| JObj (fields : list (string * json)).

(** A value that may be [undefined]: [None] is [undefined]. *)
Definition jsval : Type := option json.

Definition undefined : jsval := None.

(** An object literal built by the handler: its properties in source
    order, [undefined] values included. *)
Definition object_literal : Type := list (string * jsval).

Fixpoint assoc {A : Type} (key : string) (l : list (string * A)) : option A :=
  match l with
  | [] => None
  | (k, v) :: rest => if String.eqb k key then Some v else assoc key rest
  end.

(** ** Exceptions *)

(** The members of the SDK's [ErrorCode] that the server raises. *)
Inductive ErrorCode : Type :=
| InvalidRequest
| MethodNotFound
| InvalidParams.

(** What axios resolves a request with, and what an [AxiosError] carries
    in [error.response] when the server answered. *)
Record AxiosResponse : Type := mkResponse {
  status : Z;
  data : json
}.

(** The exceptions that can travel through a handler: the protocol error
    the handler throws itself, the rejection of an axios request, and the
    [TypeError] that the runtime raises. *)
Inductive exn : Type :=
| McpError (code : ErrorCode) (message : string)
| AxiosError (response : option AxiosResponse) (message : string)
| TypeError (message : string).

(** [axios.isAxiosError(error)]. *)
Definition isAxiosError (error : exn) : bool :=
  match error with
  | AxiosError _ _ => true
  | _ => false
  end.

(** ** Property reads and string conversion *)

(** [base.key] for the keys the handlers read from a response ([login],
    [sha], [message]): none of them is defined on a prototype, so the read
    gives [undefined] on every value that is not an object, and raises on
    [null]. *)
Definition get_prop (base : json) (key : string) : exn + jsval :=
  match base with
  | JNull =>
      inl (TypeError ("Cannot read properties of null (reading '" ++ key ++ "')"))
  | JObj fields => inr (assoc key fields)
  | _ => inr undefined
  end.

Fixpoint join (sep : string) (parts : list string) : string :=
  match parts with
  | [] => EmptyString
  | [p] => p
  | p :: rest => p ++ sep ++ join sep rest
  end.

(** The results of a list of conversions, in order: the first one that
    raises decides. *)
Fixpoint sequence (results : list (exn + string)) : exn + list string :=
  match results with
  | [] => inr []
  | inl e :: _ => inl e
  | inr s :: rest =>
      match sequence rest with
      | inl e => inl e
      | inr strings => inr (s :: strings)
      end
  end.

Fixpoint has_key {A : Type} (key : string) (fields : list (string * A)) : bool :=
  match fields with
  | [] => false
  | (k, _) :: rest => String.eqb k key || has_key key rest
  end.

(** [ToString] on a parsed JSON value, as a template literal applies it.
    [Array.prototype.join] renders [null] elements as the empty string
    and converts the others.  A parsed object has no callable property of
    its own: with an own [toString] key neither that value nor the
    inherited [valueOf], which returns the object, gives a primitive, and
    the conversion raises; without one the inherited [toString]
    answers. *)
Fixpoint json_to_string (v : json) : exn + string :=
  match v with
  | JNull => inr "null"
  | JBool true => inr "true"
  | JBool false => inr "false"
  | JNum rendering => inr rendering
  | JStr s => inr s
  | JArr items =>
      match sequence (map (fun item =>
                             match item with
                             | JNull => inr EmptyString
                             | _ => json_to_string item
                             end) items) with
      | inl e => inl e
      | inr parts => inr (join "," parts)
      end
  | JObj fields =>
      if has_key "toString" fields
      then inl (TypeError "Cannot convert object to primitive value")
      else inr "[object Object]"
  end.

(** [`${v}`]. *)
Definition template (v : jsval) : exn + string :=
  match v with
  | None => inr "undefined"
  | Some j => json_to_string j
  end.

(** [!v]: [undefined], [null], [false], zero and the empty string are
    falsy. *)
Definition falsy (v : jsval) : bool :=
  match v with
  | None => true
  | Some JNull => true
  | Some (JBool b) => negb b
  | Some (JNum rendering) => rendering =? "0"
  | Some (JStr EmptyString) => true
  | Some (JStr (String _ _)) => false
  | Some (JArr _) => false
  | Some (JObj _) => false
  end.

(** [a ?? b]: [b] when [a] is [null] or [undefined]. *)
Definition nullish (v : jsval) : bool :=
  match v with
  | None | Some JNull => true
  | _ => false
  end.

Definition coalesce (a b : jsval) : jsval := if nullish a then b else a.

(** ** Surrogates without a partner *)

(** The three bytes at the head of a string hold a lone surrogate. *)
Definition lone_surrogate (b0 b1 b2 : ascii) : bool :=
  ((N_of_ascii b0 =? 237)
   && (160 <=? N_of_ascii b1) && (N_of_ascii b1 <=? 191)
   && (128 <=? N_of_ascii b2) && (N_of_ascii b2 <=? 191))%N.

(** The code unit of a lone surrogate, from its second and third byte. *)
Definition surrogate_unit (b1 b2 : ascii) : N :=
  (55296 + (N_of_ascii b1 - 160) * 64 + (N_of_ascii b2 - 128))%N.

(** No lone surrogate starts anywhere in the string. *)
Fixpoint lone_surrogate_free (s : string) : bool :=
  match s with
  | EmptyString => true
  | String b0 rest =>
      match rest with
      | String b1 (String b2 _) => negb (lone_surrogate b0 b1 b2)
      | _ => true
      end && lone_surrogate_free rest
  end.

(** ** [JSON.stringify(value, null, 2)] *)

Definition hex_digit (n : N) : ascii :=
  match n with
  | 0 => "0" | 1 => "1" | 2 => "2" | 3 => "3" | 4 => "4"
  | 5 => "5" | 6 => "6" | 7 => "7" | 8 => "8" | 9 => "9"
  | 10 => "a" | 11 => "b" | 12 => "c" | 13 => "d" | 14 => "e"
  | _ => "f"
  end%N%char.

Definition dquote : string := String (ascii_of_N 34) EmptyString.

(** [\uXXXX] for a code unit. *)
Definition unicode_escape (unit : N) : string :=
  "\u" ++ String (hex_digit (unit / 4096))
            (String (hex_digit ((unit / 256) mod 16))
               (String (hex_digit ((unit / 16) mod 16))
                  (String (hex_digit (unit mod 16)) EmptyString))).

(** The escape of one code unit in [QuoteJSONString]. *)
Definition quote_char (c : ascii) : string :=
  let n := N_of_ascii c in
  if (n =? 8)%N then "\b"
  else if (n =? 9)%N then "\t"
  else if (n =? 10)%N then "\n"
  else if (n =? 12)%N then "\f"
  else if (n =? 13)%N then "\r"
  else if (n =? 34)%N then "\" ++ dquote
  else if (n =? 92)%N then "\\"
  else if (n <? 32)%N then unicode_escape n
  else String c EmptyString.

(** A lone surrogate is written as its escape; everything else goes
    through [quote_char] byte by byte. *)
Fixpoint quote_chars (s : string) : string :=
  match s with
  | EmptyString => EmptyString
  | String b0 rest =>
      match rest with
      | String b1 (String b2 rest') =>
          if lone_surrogate b0 b1 b2
          then unicode_escape (surrogate_unit b1 b2) ++ quote_chars rest'
          else quote_char b0 ++ quote_chars rest
      | _ => quote_char b0 ++ quote_chars rest
      end
  end.

Definition quote (s : string) : string := dquote ++ quote_chars s ++ dquote.

Definition newline : string := String (ascii_of_N 10) EmptyString.

(** [SerializeJSONProperty] with its current [indent]; [gap] is the two
    spaces that the third argument [2] stands for. *)
Definition gap : string := "  ".

Fixpoint serialize (indent : string) (v : json) : string :=
  match v with
  | JNull => "null"
  | JBool true => "true"
  | JBool false => "false"
  | JNum rendering => rendering
  | JStr s => quote s
  | JArr [] => "[]"
  | JArr ((_ :: _) as items) =>
      let stepback := indent in
      let indent := indent ++ gap in
      "[" ++ newline ++ indent
          ++ join ("," ++ newline ++ indent) (map (serialize indent) items)
          ++ newline ++ stepback ++ "]"
  | JObj [] => "{}"
  | JObj ((_ :: _) as fields) =>
      let stepback := indent in
      let indent := indent ++ gap in
      "{" ++ newline ++ indent
          ++ join ("," ++ newline ++ indent)
               (map (fun kv => quote (fst kv) ++ ": " ++ serialize indent (snd kv))
                    fields)
          ++ newline ++ stepback ++ "}"
  end.

Definition JSON_stringify (value : json) : string := serialize EmptyString value.

(** ** [Buffer.from(s).toString('base64')] *)

(** A [Buffer] is its bytes. *)
Definition Buffer : Type := list Byte.byte.

(** The bytes of U+FFFD. *)
Definition replacement : list Byte.byte := [Byte.xef; Byte.xbf; Byte.xbd].

(** [Buffer.from(s)] for a string: its UTF-8 encoding, in which every
    lone surrogate is replaced by U+FFFD. *)
Fixpoint Buffer_from (s : string) : Buffer :=
  match s with
  | EmptyString => []
  | String b0 rest =>
      match rest with
      | String b1 (String b2 rest') =>
          if lone_surrogate b0 b1 b2
          then (replacement ++ Buffer_from rest')%list
          else byte_of_ascii b0 :: Buffer_from rest
      | _ => byte_of_ascii b0 :: Buffer_from rest
      end
  end.

Definition base64_alphabet : string :=
  "ABCDEFGHIJKLMNOPQRSTUVWXYZabcdefghijklmnopqrstuvwxyz0123456789+/".

Definition pad : ascii := "="%char.

(** The character of a 6-bit group. *)
Definition base64_char (sextet : N) : ascii :=
  match String.get (N.to_nat sextet) base64_alphabet with
  | Some c => c
  | None => pad
  end.

(** The four 6-bit groups of three bytes: [b0 >> 2],
    [(b0 & 3) << 4 | b1 >> 4], [(b1 & 15) << 2 | b2 >> 6], [b2 & 63]. *)
Definition sextets (b0 b1 b2 : N) : N * N * N * N :=
  (b0 / 4, (b0 mod 4) * 16 + b1 / 16, (b1 mod 16) * 4 + b2 / 64, b2 mod 64)%N.

(** Three bytes give four characters; a last group of one or two bytes is
    filled with zero bits and closed with [=]. *)
Fixpoint base64_of_bytes (bytes : list Byte.byte) : string :=
  match bytes with
  | [] => EmptyString
  | [b0] =>
      let '(s0, s1, _, _) := sextets (Byte.to_N b0) 0 0 in
      String (base64_char s0) (String (base64_char s1) (String pad (String pad EmptyString)))
  | [b0; b1] =>
      let '(s0, s1, s2, _) := sextets (Byte.to_N b0) (Byte.to_N b1) 0 in
      String (base64_char s0) (String (base64_char s1)
        (String (base64_char s2) (String pad EmptyString)))
  | b0 :: b1 :: b2 :: rest =>
      let '(s0, s1, s2, s3) := sextets (Byte.to_N b0) (Byte.to_N b1) (Byte.to_N b2) in
      String (base64_char s0) (String (base64_char s1)
        (String (base64_char s2) (String (base64_char s3) (base64_of_bytes rest))))
  end.

Definition Buffer_toString_base64 (b : Buffer) : string := base64_of_bytes b.

(** *** The receiving side: base64 decoding (RFC 4648)

    The server only encodes.  The decoder is the one the upstream applies
    to the transmitted [content]; the round-trip law is stated against
    it. *)

Definition base64_index (c : ascii) : option N :=
  let n := N_of_ascii c in
  if ((65 <=? n) && (n <=? 90))%N then Some (n - 65)%N
  else if ((97 <=? n) && (n <=? 122))%N then Some (n - 71)%N
  else if ((48 <=? n) && (n <=? 57))%N then Some (n + 4)%N
  else if (n =? 43)%N then Some 62%N
  else if (n =? 47)%N then Some 63%N
  else None.

Definition byte_of_N (n : N) : Byte.byte :=
  match Byte.of_N n with
  | Some b => b
  | None => Byte.x00
  end.

(** The three bytes of four 6-bit groups. *)
Definition octets (s0 s1 s2 s3 : N) : N * N * N :=
  (s0 * 4 + s1 / 16, (s1 mod 16) * 16 + s2 / 4, (s2 mod 4) * 64 + s3)%N.

Fixpoint base64_decode (s : string) : option (list Byte.byte) :=
  match s with
  | EmptyString => Some []
  | String c0 (String c1 (String c2 (String c3 rest))) =>
      if Ascii.eqb c3 pad then
        match rest with
        | EmptyString =>
            if Ascii.eqb c2 pad then
              match base64_index c0, base64_index c1 with
              | Some s0, Some s1 =>
                  let '(b0, _, _) := octets s0 s1 0 0 in
                  Some [byte_of_N b0]
              | _, _ => None
              end
            else
              match base64_index c0, base64_index c1, base64_index c2 with
              | Some s0, Some s1, Some s2 =>
                  let '(b0, b1, _) := octets s0 s1 s2 0 in
                  Some [byte_of_N b0; byte_of_N b1]
              | _, _, _ => None
              end
        | String _ _ => None
        end
      else
        match base64_index c0, base64_index c1, base64_index c2, base64_index c3,
              base64_decode rest with
        | Some s0, Some s1, Some s2, Some s3, Some tail =>
            let '(b0, b1, b2) := octets s0 s1 s2 s3 in
            Some (byte_of_N b0 :: byte_of_N b1 :: byte_of_N b2 :: tail)
        | _, _, _, _, _ => None
        end
  | _ => None
  end.

(** ** Upstream exchanges *)

Inductive Method : Type := GET | POST | PUT.

(** One call on the axios instance: the verb, the path under the base
    URL, and the request body where the verb carries one. *)
Record Request : Type := mkRequest {
  method : Method;
  url : string;
  body : option object_literal
}.

(** What the network gives back: an HTTP response with its parsed body,
    or no response at all. *)
Inductive Reply : Type :=
| HttpReply (status : Z) (data : json)
| TransportFailure (message : string).

(** The default [validateStatus] of axios. *)
Definition validateStatus (status : Z) : bool :=
  ((200 <=? status) && (status <? 300))%Z.

Definition decimal (z : Z) : string := NilZero.string_of_int (Z.to_int z).

(** How axios settles the promise of a request: it resolves with the
    response on a status that [validateStatus] accepts, and rejects with
    an [AxiosError] otherwise, which carries the response when there is
    one. *)
Definition settle (reply : Reply) : exn + AxiosResponse :=
  match reply with
  | HttpReply status data =>
      if validateStatus status then inr (mkResponse status data)
      else inl (AxiosError (Some (mkResponse status data))
                  ("Request failed with status code " ++ decimal status))
  | TransportFailure message => inl (AxiosError None message)
  end.

(** ** Handler programs *)

(** An [async] function body: it returns, throws, or awaits one upstream
    exchange and goes on with the reply. *)
Inductive prog (A : Type) : Type :=
| Return (a : A)
| Throw (e : exn)
| Await (r : Request) (k : Reply -> prog A).

Arguments Return {A} a.
Arguments Throw {A} e.
Arguments Await {A} r k.

Fixpoint bind {A B : Type} (p : prog A) (f : A -> prog B) : prog B :=
  match p with
  | Return a => f a
  | Throw e => Throw e
  | Await r k => Await r (fun reply => bind (k reply) f)
  end.

Notation "x <- p ;; q" := (bind p (fun x => q))
  (at level 61, p at next level, right associativity).

(** [try { p } catch (error) { handler error }]. *)
Fixpoint try_catch {A : Type} (p : prog A) (handler : exn -> prog A) : prog A :=
  match p with
  | Return a => Return a
  | Throw e => handler e
  | Await r k => Await r (fun reply => try_catch (k reply) handler)
  end.

Definition of_result {A : Type} (r : exn + A) : prog A :=
  match r with
  | inl e => Throw e
  | inr a => Return a
  end.

Definition request (r : Request) : prog AxiosResponse :=
  Await r (fun reply => of_result (settle reply)).

(** [await this.axiosInstance.get(url)] and its siblings. *)
Definition axios_get (url : string) : prog AxiosResponse :=
  request (mkRequest GET url None).

Definition axios_post (url : string) (body : object_literal) : prog AxiosResponse :=
  request (mkRequest POST url (Some body)).

Definition axios_put (url : string) (body : object_literal) : prog AxiosResponse :=
  request (mkRequest PUT url (Some body)).

(** The upstream answers a request knowing the calls made before it
    (oldest first). *)
Definition Upstream : Type := list Request -> Request -> Reply.

(** Running a handler against an upstream, from the calls [made] so far:
    the calls made after it, in order, and how the handler ended. *)
Fixpoint run {A : Type} (upstream : Upstream) (made : list Request) (p : prog A)
  : list Request * (exn + A) :=
  match p with
  | Return a => (made, inr a)
  | Throw e => (made, inl e)
  | Await r k => run upstream (made ++ [r])%list (k (upstream made r))
  end.

(** A whole invocation starts with no call made. *)
Definition invoke {A : Type} (upstream : Upstream) (p : prog A)
  : list Request * (exn + A) :=
  run upstream [] p.

(** ** Resource handlers ([setupResourceHandlers]) *)

Record ListResourcesResult : Type := {
  resources : list json
}.

Record ListResourceTemplatesResult : Type := {
  resourceTemplates : list json
}.

Record ReadResourceResult : Type := {
  contents : list json
}.

Definition ListResources : prog ListResourcesResult :=
  Return {| resources := [] |}.

Definition ListResourceTemplates : prog ListResourceTemplatesResult :=
  Return {| resourceTemplates := [] |}.

Definition ReadResource (uri : string) : prog ReadResourceResult :=
  Throw (McpError InvalidRequest ("Invalid URI format: " ++ uri)).

(** ** Tool declarations ([ListToolsRequestSchema]) *)

Record Property : Type := mkProperty {
  property_type : string;
  property_description : string;
  property_default : jsval
}.

Record InputSchema : Type := {
  schema_type : string;
  properties : list (string * Property);
  required : list string
}.

Record Tool : Type := {
  name : string;
  tool_description : string;
  inputSchema : InputSchema
}.

Definition get_user_tool : Tool :=
  {| name := "get_user";
     tool_description := "Get GitHub user information";
     inputSchema :=
       {| schema_type := "object";
          properties :=
            [ ("username", mkProperty "string" "GitHub username" undefined) ];
          required := ["username"] |} |}.

Definition create_repo_tool : Tool :=
  {| name := "create_repo";
     tool_description := "Create a new GitHub repository";
     inputSchema :=
       {| schema_type := "object";
          properties :=
            [ ("repo_name",
               mkProperty "string" "The name of the repository to create" undefined);
              ("description",
               mkProperty "string" "A description of the repository" undefined);
              ("private",
               mkProperty "boolean" "Whether the repository should be private"
                 (Some (JBool false))) ];
          required := ["repo_name"] |} |}.

Definition push_to_repo_tool : Tool :=
  {| name := "push_to_repo";
     tool_description := "Push content to a GitHub repository";
     inputSchema :=
       {| schema_type := "object";
          properties :=
            [ ("repo_name",
               mkProperty "string" "The name of the repository to push to" undefined);
              ("file_path",
               mkProperty "string"
                 "The path where the file should be created in the repository"
                 undefined);
              ("content",
               mkProperty "string" "The content to push to the repository" undefined);
              ("message",
               mkProperty "string" "The commit message"
                 (Some (JStr "Update via GitHub MCP"))) ];
          required := ["repo_name"; "file_path"; "content"] |} |}.

(** The [tools] array of the listing, in its order. *)
Definition tools : list Tool := [get_user_tool; create_repo_tool; push_to_repo_tool].

Definition ListTools : prog (list Tool) := Return tools.

(** ** Tool calls ([CallToolRequestSchema]) *)

(** [request.params.arguments as GithubToolArguments]: the cast checks
    nothing, so the value is the JSON object of the request, with any
    JSON value under any key. *)
Definition GithubToolArguments : Type := list (string * json).

Record TextContent : Type := {
  type : string;
  text : string
}.

(** What a tool call returns: [result_content] is its [content] property,
    and [isError] is [None] when the object literal has no such
    property. *)
Record CallToolResult : Type := {
  result_content : list TextContent;
  isError : option bool
}.

(** [args.key], where [request.params.arguments] may be missing.  None of
    the keys that the handler reads is defined on a prototype. *)
Definition read (args : option GithubToolArguments) (key : string) : prog jsval :=
  match args with
  | Some fields => Return (assoc key fields)
  | None =>
      Throw (TypeError ("Cannot read properties of undefined (reading '" ++ key ++ "')"))
  end.

(** The object returned after the last upstream call resolved. *)
Definition success (response : AxiosResponse) : CallToolResult :=
  {| result_content :=
       [ {| type := "text"; text := JSON_stringify (data response) |} ];
     isError := None |}.

Definition error_response (error : exn) : option AxiosResponse :=
  match error with
  | AxiosError response _ => response
  | _ => None
  end.

Definition error_message (error : exn) : string :=
  match error with
  | McpError _ message => message
  | AxiosError _ message => message
  | TypeError message => message
  end.

(** The [catch (error)] block that closes each of the three branches:
    an axios rejection becomes a returned error object, anything else is
    thrown again.  [error.response?.data.message] is [undefined] without a
    response and reads [message] from the body otherwise; the template
    literal converts what [??] leaves. *)
Definition catch_upstream (error : exn) : prog CallToolResult :=
  if isAxiosError error then
    detail <- match error_response error with
              | None => Return undefined
              | Some response => of_result (get_prop (data response) "message")
              end ;;
    shown <- of_result (template (coalesce detail (Some (JStr (error_message error))))) ;;
    Return
      {| result_content :=
           [ {| type := "text"; text := "GitHub API error: " ++ shown |} ];
         isError := Some true |}
  else Throw error.

(** The branch [request.params.name === 'get_user']; the template
    literal of the path is evaluated inside the [try]. *)
Definition get_user (args : option GithubToolArguments) : prog CallToolResult :=
  username <- read args "username" ;;
  if falsy username then Throw (McpError InvalidParams "Username is required")
  else
    try_catch
      (user <- of_result (template username) ;;
       response <- axios_get ("/users/" ++ user) ;;
       Return (success response))
      catch_upstream.

(** The branch [request.params.name === 'create_repo']; the object
    literal of the POST is built inside the [try]. *)
Definition create_repo (args : option GithubToolArguments) : prog CallToolResult :=
  repo_name <- read args "repo_name" ;;
  if falsy repo_name then Throw (McpError InvalidParams "Repository name is required")
  else
    try_catch
      (description <- read args "description" ;;
       private <- read args "private" ;;
       response <- axios_post "/user/repos"
                     [ ("name", repo_name);
                       ("description", description);
                       ("private", coalesce private (Some (JBool false))) ] ;;
       Return (success response))
      catch_upstream.

(** [`/repos/${username}/${repo_name}/contents/${file_path}`], which
    [push_to_repo] evaluates once for the lookup and once for the
    write. *)
Definition contents_path (username repo_name file_path : jsval) : exn + string :=
  match template username with
  | inl e => inl e
  | inr owner =>
      match template repo_name with
      | inl e => inl e
      | inr repo =>
          match template file_path with
          | inl e => inl e
          | inr path => inr ("/repos/" ++ owner ++ "/" ++ repo ++ "/contents/" ++ path)
          end
      end
  end.

(** The inner [try] of [push_to_repo]: the read of the file that may
    already be at the path, for its [sha]. *)
Definition existing_file_sha (username repo_name file_path : jsval) : prog jsval :=
  target <- of_result (contents_path username repo_name file_path) ;;
  fileResponse <- axios_get target ;;
  of_result (get_prop (data fileResponse) "sha").

Section Handlers.

(** What [Buffer.from] makes of an array or of another object depends on
    [length], [type], [data] and [valueOf] in ways that Node decides: it
    is left open, as the bytes or as the message of the error raised. *)
Variable Buffer_from_object : json -> string + Buffer.

(** ["Received ..."], the end of the message of [ERR_INVALID_ARG_TYPE]. *)
Definition received (value : jsval) : string :=
  match value with
  | None => "Received undefined"
  | Some JNull => "Received null"
  | Some (JBool true) => "Received type boolean (true)"
  | Some (JBool false) => "Received type boolean (false)"
  | Some (JNum rendering) => "Received type number (" ++ rendering ++ ")"
  | Some _ => "Received an instance of Object"
  end.

(** [Buffer.from(content)]: the bytes of a string, an error for
    [undefined], [null], a number or a boolean. *)
Definition Buffer_from_value (content : jsval) : exn + Buffer :=
  match content with
  | Some (JStr s) => inr (Buffer_from s)
  | Some (JArr items) =>
      match Buffer_from_object (JArr items) with
      | inl message => inl (TypeError message)
      | inr bytes => inr bytes
      end
  | Some (JObj fields) =>
      match Buffer_from_object (JObj fields) with
      | inl message => inl (TypeError message)
      | inr bytes => inr bytes
      end
  | _ =>
      inl (TypeError
             ("The first argument must be of type string or an instance of Buffer, "
              ++ "ArrayBuffer, or Array or an Array-like Object. "
              ++ received content))
  end.

(** The outer [try] of [push_to_repo]: the identity read, the lookup
    under its own [try] whose [catch] is empty and leaves [sha]
    undefined, and the write. *)
Definition push_to_repo_try (args : option GithubToolArguments)
    (repo_name file_path content : jsval) : prog CallToolResult :=
  userResponse <- axios_get "/user" ;;
  username <- of_result (get_prop (data userResponse) "login") ;;
  sha <- try_catch (existing_file_sha username repo_name file_path)
           (fun _ => Return undefined) ;;
  target <- of_result (contents_path username repo_name file_path) ;;
  message <- read args "message" ;;
  buffer <- of_result (Buffer_from_value content) ;;
  response <- axios_put target
                [ ("message", coalesce message (Some (JStr "Update via GitHub MCP")));
                  ("content", Some (JStr (Buffer_toString_base64 buffer)));
                  ("sha", sha) ] ;;
  Return (success response).

(** The branch [request.params.name === 'push_to_repo']. *)
Definition push_to_repo (args : option GithubToolArguments) : prog CallToolResult :=
  repo_name <- read args "repo_name" ;;
  file_path <- read args "file_path" ;;
  content <- read args "content" ;;
  if falsy repo_name || falsy file_path || falsy content then
    Throw (McpError InvalidParams
             "Repository name, file path, and content are required")
  else
    try_catch (push_to_repo_try args repo_name file_path content) catch_upstream.

(** The handler of a tool call: [tool] is [request.params.name] and
    [arguments] is [request.params.arguments]. *)
Definition CallTool (tool : string) (arguments : option GithubToolArguments)
  : prog CallToolResult :=
  let args := arguments in
  if tool =? "get_user" then get_user args
  else if tool =? "create_repo" then create_repo args
  else if tool =? "push_to_repo" then push_to_repo args
  else Throw (McpError MethodNotFound ("Unknown tool: " ++ tool)).

End Handlers.

(** ** Vocabulary of the properties *)

(** What Node makes of the objects given to [Buffer.from]. *)
Definition ObjectBytes : Type := json -> string + Buffer.

(** [isError] as the protocol reads it: the property is optional and
    stands for [false] when it is missing. *)
Definition error_flag (result : CallToolResult) : bool :=
  match isError result with
  | Some b => b
  | None => false
  end.

(** The text that the [catch] block returns starts with this. *)
Definition error_prefix : string := "GitHub API error: ".

(** The returned object of the [catch] block for an upstream failure
    whose text is [detail]. *)
Definition failure (detail : string) : CallToolResult :=
  {| result_content :=
       [ {| type := "text"; text := "GitHub API error: " ++ detail |} ];
     isError := Some true |}.

(** The text that the [catch] block shows for a rejection with this
    body message, if the conversion to a string lets it. *)
Definition shown_detail (detail : jsval) (text : string) : exn + CallToolResult :=
  match template (coalesce detail (Some (JStr text))) with
  | inl e => inl e
  | inr shown => inr (failure shown)
  end.

(** How a [catch] block ends for each exception it can receive. *)
Definition reported (error : exn) : exn + CallToolResult :=
  match error with
  | AxiosError None text => inr (failure text)
  | AxiosError (Some response) text =>
      match get_prop (data response) "message" with
      | inl e => inl e
      | inr detail => shown_detail detail text
      end
  | _ => inl error
  end.

(** How a branch ends once its last upstream call is settled. *)
Definition finish (settled : exn + AxiosResponse) : exn + CallToolResult :=
  match settled with
  | inr response => inr (success response)
  | inl error => reported error
  end.

(** The requests of the three branches. *)
Definition user_request (user : string) : Request :=
  mkRequest GET ("/users/" ++ user) None.

Definition create_request (args : GithubToolArguments) : Request :=
  mkRequest POST "/user/repos"
    (Some [ ("name", assoc "repo_name" args);
            ("description", assoc "description" args);
            ("private", coalesce (assoc "private" args) (Some (JBool false))) ]).

Definition identity_request : Request := mkRequest GET "/user" None.

(** The path of the file, from the [login] of the identity and the
    arguments. *)
Definition contents_url (login : jsval) (args : GithubToolArguments) : exn + string :=
  contents_path login (assoc "repo_name" args) (assoc "file_path" args).

Definition lookup_request (target : string) : Request := mkRequest GET target None.

Definition put_body (args : GithubToolArguments) (bytes : Buffer) (sha : jsval)
  : object_literal :=
  [ ("message", coalesce (assoc "message" args) (Some (JStr "Update via GitHub MCP")));
    ("content", Some (JStr (Buffer_toString_base64 bytes)));
    ("sha", sha) ].

Definition put_request (target : string) (args : GithubToolArguments)
    (bytes : Buffer) (sha : jsval) : Request :=
  mkRequest PUT target (Some (put_body args bytes sha)).

(** The three required fields of [push_to_repo] pass its guard. *)
Definition push_ready (args : GithubToolArguments) : Prop :=
  falsy (assoc "repo_name" args) = false
  /\ falsy (assoc "file_path" args) = false
  /\ falsy (assoc "content" args) = false.

(** The upstream resolves the identity call with a body whose [login]
    reads as [login]. *)
Definition identity_known (upstream : Upstream) (login : jsval) : Prop :=
  exists response,
    settle (upstream [] identity_request) = inr response
    /\ get_prop (data response) "login" = inr login.

(** A [push_to_repo] call gets as far as its write: the guard passes,
    the identity is read, the path [target] can be built, and
    [Buffer.from] gives [bytes] for the content.  All of it holds when
    the three fields are non-empty strings and [login] is a string. *)
Definition push_reaches_write (node : ObjectBytes) (upstream : Upstream)
    (args : GithubToolArguments) (login : jsval) (target : string)
    (bytes : Buffer) : Prop :=
  push_ready args
  /\ identity_known upstream login
  /\ contents_url login args = inr target
  /\ Buffer_from_value node (assoc "content" args) = inr bytes.

(** What the lookup of the existing file leaves in [sha]. *)
Definition sha_found (settled : exn + AxiosResponse) : jsval :=
  match settled with
  | inr fileResponse =>
      match get_prop (data fileResponse) "sha" with
      | inr sha => sha
      | inl _ => undefined
      end
  | inl _ => undefined
  end.

(** The first required field of a tool, in declaration order, that the
    arguments leave out or hold as a falsy value. *)
Definition first_missing (tool : Tool) (args : GithubToolArguments) : option string :=
  find (fun key => falsy (assoc key args)) (required (inputSchema tool)).

(** The message of the protocol error that each branch raises from its
    guard. *)
Definition guard_message (tool : string) : string :=
  if tool =? "get_user" then "Username is required"
  else if tool =? "create_repo" then "Repository name is required"
  else "Repository name, file path, and content are required".

(** Every call of a run was resolved by axios: [calls] are replayed
    against the upstream from the calls [made] before them. *)
Fixpoint all_resolved (upstream : Upstream) (made calls : list Request) : bool :=
  match calls with
  | [] => true
  | r :: rest =>
      match settle (upstream made r) with
      | inr _ => all_resolved upstream (made ++ [r])%list rest
      | inl _ => false
      end
  end.

(** The response to the last call of a run. *)
Fixpoint last_response (upstream : Upstream) (made calls : list Request)
  : option AxiosResponse :=
  match calls with
  | [] => None
  | [r] =>
      match settle (upstream made r) with
      | inr response => Some response
      | inl _ => None
      end
  | r :: rest => last_response upstream (made ++ [r])%list rest
  end.

(** What axios transmits of a request body: [JSON.stringify] leaves out
    the properties whose value is [undefined]. *)
Fixpoint transmitted (o : object_literal) : list (string * json) :=
  match o with
  | [] => []
  | (key, Some value) :: rest => (key, value) :: transmitted rest
  | (_, None) :: rest => transmitted rest
  end.

(** The default that a tool declares for one of its properties. *)
Definition declared_default (tool : Tool) (key : string) : jsval :=
  match assoc key (properties (inputSchema tool)) with
  | Some property => property_default property
  | None => undefined
  end.

(** A character of base64 text: a letter of the alphabet or the
    padding. *)
Definition base64_letter (c : ascii) : Prop := c = pad \/ base64_index c <> None.

(** ** Sample upstreams and arguments *)

(** An upstream that answers the identity call, the lookup of the
    existing file and the write with fixed replies. *)
Definition scripted (identity lookup write : Reply) : Upstream :=
  fun _ r =>
    match method r with
    | GET => if url r =? "/user" then identity else lookup
    | POST | PUT => write
    end.

(** An upstream without network. *)
Definition offline : Upstream :=
  fun _ _ => TransportFailure "getaddrinfo ENOTFOUND api.github.com".

(** A Node that takes no array and no object for a buffer. *)
Definition strings_only : ObjectBytes :=
  fun _ =>
    inl ("The first argument must be of type string or an instance of Buffer, "
         ++ "ArrayBuffer, or Array or an Array-like Object. "
         ++ "Received an instance of Object").

Definition octocat : Reply := HttpReply 200 (JObj [("login", JStr "octocat")]).

Definition not_found : Reply := HttpReply 404 (JObj [("message", JStr "Not Found")]).

Definition existing : Reply := HttpReply 200 (JObj [("sha", JStr "abc123")]).

Definition written : Reply :=
  HttpReply 201 (JObj [("content", JObj [("sha", JStr "def456")])]).

Definition no_arguments : GithubToolArguments := [].

Definition readme_args : GithubToolArguments :=
  [ ("repo_name", JStr "site");
    ("file_path", JStr "docs/README.md");
    ("content", JStr "# Hello") ].

(** The same push with a number for its content. *)
Definition numeric_content_args : GithubToolArguments :=
  [ ("repo_name", JStr "site");
    ("file_path", JStr "docs/README.md");
    ("content", JNum "123") ].

Definition ghost_args : GithubToolArguments := [ ("username", JStr "ghost") ].

Definition only_repo_name (repo : string) : GithubToolArguments :=
  [ ("repo_name", JStr repo) ].

(** Arguments that fill every field. *)
Definition release_args : GithubToolArguments :=
  [ ("username", JStr "octocat");
    ("repo_name", JStr "site");
    ("description", JStr "Project site");
    ("private", JBool true);
    ("file_path", JStr "CHANGELOG.md");
    ("content", JStr "v1");
    ("message", JStr "Cut v1") ].

(** The paths and bytes of the sample pushes. *)
Definition readme_url : string := "/repos/octocat/site/contents/docs/README.md".

Definition readme_bytes : Buffer := Buffer_from "# Hello".

(** A string that is one high surrogate without its partner, U+D800. *)
Definition lone_high : string :=
  String (ascii_of_N 237) (String (ascii_of_N 160) (String (ascii_of_N 128) EmptyString)).

(** The replacement character U+FFFD as a string. *)
Definition replacement_character : string :=
  String (ascii_of_N 239) (String (ascii_of_N 191) (String (ascii_of_N 189) EmptyString)).

(** ** The claims that the handler does not meet, as they are worded *)

(** A non-upstream exception raised by the lookup of the existing file
    ends the invocation. *)
Definition lookup_exception_propagates : Prop :=
  forall (node : ObjectBytes) (upstream : Upstream) (args : GithubToolArguments)
         (login : jsval) (calls : list Request) (e : exn),
    push_ready args ->
    identity_known upstream login ->
    run upstream [identity_request]
      (existing_file_sha login (assoc "repo_name" args) (assoc "file_path" args))
      = (calls, inl e) ->
    isAxiosError e = false ->
    snd (invoke upstream (CallTool node "push_to_repo" (Some args))) = inl e.

(** A push to a path without a file makes two calls, the identity read
    and the write. *)
Definition new_file_two_calls : Prop :=
  forall (node : ObjectBytes) (upstream : Upstream) (args : GithubToolArguments)
         (login : jsval) (target : string) (error : exn),
    push_ready args ->
    identity_known upstream login ->
    contents_url login args = inr target ->
    settle (upstream [identity_request] (lookup_request target)) = inl error ->
    exists put,
      fst (invoke upstream (CallTool node "push_to_repo" (Some args)))
        = [identity_request; put]
      /\ method put = PUT.

(** The protocol error of a missing required field tells which field,
    the first one missing in declaration order: some reading [named] of
    error messages recovers it. *)
Definition missing_field_named : Prop :=
  exists named : string -> option string,
    forall (node : ObjectBytes) (upstream : Upstream) (tool : Tool)
           (args : GithubToolArguments) (key : string),
      In tool tools ->
      first_missing tool args = Some key ->
      exists code text,
        invoke upstream (CallTool node (name tool) (Some args))
          = ([], inl (McpError code text))
        /\ named text = Some key.

(** Every invocation whose upstream calls were all resolved returns the
    pretty-printed body with the error flag down. *)
Definition resolved_calls_succeed : Prop :=
  forall (node : ObjectBytes) (upstream : Upstream) (tool : string)
         (arguments : option GithubToolArguments),
    let calls := fst (invoke upstream (CallTool node tool arguments)) in
    calls <> [] ->
    all_resolved upstream [] calls = true ->
    exists response result,
      snd (invoke upstream (CallTool node tool arguments)) = inr result
      /\ result_content result
         = [ {| type := "text"; text := JSON_stringify (data response) |} ]
      /\ error_flag result = false.

(** Every upstream call that is rejected with a body whose message is
    [Not Found] ends the invocation with that message reported. *)
Definition every_rejection_reported : Prop :=
  forall (node : ObjectBytes) (upstream : Upstream) (tool : string)
         (arguments : option GithubToolArguments)
         (pre post : list Request) (r : Request) (status : Z) (data : json),
    fst (invoke upstream (CallTool node tool arguments)) = (pre ++ r :: post)%list ->
    upstream pre r = HttpReply status data ->
    validateStatus status = false ->
    get_prop data "message" = inr (Some (JStr "Not Found")) ->
    snd (invoke upstream (CallTool node tool arguments))
      = inr {| result_content :=
                 [ {| type := "text"; text := "GitHub API error: Not Found" |} ];
               isError := Some true |}.

(** Every push to an upstream that holds, at whatever path is looked up,
    a file whose hash is [abc123] makes three calls, the last one a PUT
    with that hash. *)
Definition existing_file_three_calls : Prop :=
  forall (node : ObjectBytes) (upstream : Upstream)
         (arguments : option GithubToolArguments),
    (forall made r,
        method r = GET -> url r <> "/user" -> upstream made r = existing) ->
    exists first second put fields,
      fst (invoke upstream (CallTool node "push_to_repo" arguments))
        = [first; second; put]
      /\ method put = PUT
      /\ body put = Some fields
      /\ assoc "sha" fields = Some (Some (JStr "abc123")).

(** ** The ways a tool call can go *)

(** The calls and the outcome of a tool call, by how far it got. *)
Inductive ending (node : ObjectBytes) (upstream : Upstream) (tool : string)
    (arguments : option GithubToolArguments)
  : list Request -> exn + CallToolResult -> Prop :=
| unknown_tool :
    ~ In tool (map name tools) ->
    ending node upstream tool arguments []
      (inl (McpError MethodNotFound ("Unknown tool: " ++ tool)))
| no_mapping m :
    In tool (map name tools) ->
    arguments = None ->
    ending node upstream tool arguments [] (inl (TypeError m))
| guard_failed args :
    In tool (map name tools) ->
    arguments = Some args ->
    ending node upstream tool arguments []
      (inl (McpError InvalidParams (guard_message tool)))
| user_unnamed args m :
    tool = "get_user" ->
    arguments = Some args ->
    falsy (assoc "username" args) = false ->
    template (assoc "username" args) = inl (TypeError m) ->
    ending node upstream tool arguments [] (inl (TypeError m))
| user_read args user :
    tool = "get_user" ->
    arguments = Some args ->
    falsy (assoc "username" args) = false ->
    template (assoc "username" args) = inr user ->
    ending node upstream tool arguments [user_request user]
      (finish (settle (upstream [] (user_request user))))
| repo_created args :
    tool = "create_repo" ->
    arguments = Some args ->
    falsy (assoc "repo_name" args) = false ->
    ending node upstream tool arguments [create_request args]
      (finish (settle (upstream [] (create_request args))))
| identity_rejected args error :
    tool = "push_to_repo" ->
    arguments = Some args ->
    push_ready args ->
    settle (upstream [] identity_request) = inl error ->
    ending node upstream tool arguments [identity_request] (reported error)
| identity_unreadable args userResponse m :
    tool = "push_to_repo" ->
    arguments = Some args ->
    push_ready args ->
    settle (upstream [] identity_request) = inr userResponse ->
    get_prop (data userResponse) "login" = inl (TypeError m) ->
    ending node upstream tool arguments [identity_request] (inl (TypeError m))
| path_unbuilt args login m :
    tool = "push_to_repo" ->
    arguments = Some args ->
    push_ready args ->
    identity_known upstream login ->
    contents_url login args = inl (TypeError m) ->
    ending node upstream tool arguments [identity_request] (inl (TypeError m))
| content_refused args login target m :
    tool = "push_to_repo" ->
    arguments = Some args ->
    push_ready args ->
    identity_known upstream login ->
    contents_url login args = inr target ->
    Buffer_from_value node (assoc "content" args) = inl (TypeError m) ->
    ending node upstream tool arguments [identity_request; lookup_request target]
      (inl (TypeError m))
| pushed args login target bytes :
    tool = "push_to_repo" ->
    arguments = Some args ->
    push_reaches_write node upstream args login target bytes ->
    let lookup := lookup_request target in
    let sha := sha_found (settle (upstream [identity_request] lookup)) in
    let put := put_request target args bytes sha in
    ending node upstream tool arguments [identity_request; lookup; put]
      (finish (settle (upstream [identity_request; lookup] put))).

(** ** Running programs *)

Lemma run_bind {A B : Type} (upstream : Upstream) (p : prog A) (f : A -> prog B) :
  forall made,
    run upstream made (bind p f) =
    match run upstream made p with
    | (calls, inr a) => run upstream calls (f a)
    | (calls, inl e) => (calls, inl e)
    end.
Proof.
  induction p as [a | e | r k IH]; intro made; simpl.
  - reflexivity.
  - reflexivity.
  - apply IH.
Qed.

Lemma run_try_catch {A : Type} (upstream : Upstream) (p : prog A)
    (handler : exn -> prog A) :
  forall made,
    run upstream made (try_catch p handler) =
    match run upstream made p with
    | (calls, inr a) => (calls, inr a)
    | (calls, inl e) => run upstream calls (handler e)
    end.
Proof.
  induction p as [a | e | r k IH]; intro made; simpl.
  - reflexivity.
  - reflexivity.
  - apply IH.
Qed.

Lemma run_of_result {A : Type} (upstream : Upstream) (made : list Request)
    (r : exn + A) :
  run upstream made (of_result r) = (made, r).
Proof. destruct r; reflexivity. Qed.

Lemma run_request (upstream : Upstream) (made : list Request) (r : Request) :
  run upstream made (request r) = ((made ++ [r])%list, settle (upstream made r)).
Proof. unfold request; simpl. apply run_of_result. Qed.

Ltac steps := cbn [read run bind try_catch of_result].

Lemma run_catch_upstream (upstream : Upstream) (made : list Request) (error : exn) :
  run upstream made (catch_upstream error) = (made, reported error).
Proof.
  destruct error as [code m | [response |] m | m]; try reflexivity.
  unfold catch_upstream, reported, shown_detail.
  cbn [isAxiosError error_response error_message].
  rewrite run_bind, run_of_result.
  destruct (get_prop (data response) "message") as [e | detail]; [reflexivity |].
  rewrite run_bind, run_of_result.
  destruct (template (coalesce detail (Some (JStr m)))); reflexivity.
Qed.

Ltac run_steps :=
  repeat first
    [ rewrite run_catch_upstream
    | rewrite run_request
    | rewrite run_of_result
    | rewrite run_try_catch
    | rewrite run_bind
    | progress steps ].

(** ** What the conversions raise *)

Lemma get_prop_raises (base : json) (key : string) (e : exn) :
  get_prop base key = inl e -> exists text, e = TypeError text.
Proof.
  destruct base; simpl; try discriminate.
  intro H; injection H as <-. eauto.
Qed.

Lemma sequence_raises (results : list (exn + string)) (e : exn) :
  Forall (fun r => forall e', r = inl e' -> exists text, e' = TypeError text) results ->
  sequence results = inl e -> exists text, e = TypeError text.
Proof.
  induction 1 as [| r rest Hr _ IH]; simpl; [discriminate |].
  destruct r as [e' | s].
  - intro H; injection H as <-. apply Hr. reflexivity.
  - destruct (sequence rest) as [e' | strings]; [| discriminate].
    intro H; injection H as <-. apply IH. reflexivity.
Qed.

Lemma json_all (P : json -> Prop) :
  P JNull ->
  (forall b, P (JBool b)) ->
  (forall rendering, P (JNum rendering)) ->
  (forall s, P (JStr s)) ->
  (forall items, Forall P items -> P (JArr items)) ->
  (forall fields, Forall (fun kv => P (snd kv)) fields -> P (JObj fields)) ->
  forall v, P v.
Proof.
  intros Hnull Hbool Hnum Hstr Harr Hobj.
  fix IH 1. intros [| b | n | s | items | fields].
  - exact Hnull.
  - apply Hbool.
  - apply Hnum.
  - apply Hstr.
  - apply Harr.
    exact ((fix all (l : list json) : Forall P l :=
              match l with
              | [] => Forall_nil P
              | x :: rest => Forall_cons x (IH x) (all rest)
              end) items).
  - apply Hobj.
    exact ((fix all (l : list (string * json)) : Forall (fun kv => P (snd kv)) l :=
              match l with
              | [] => Forall_nil _
              | kv :: rest => Forall_cons kv (IH (snd kv)) (all rest)
              end) fields).
Qed.

Lemma json_to_string_raises (v : json) (e : exn) :
  json_to_string v = inl e -> exists text, e = TypeError text.
Proof.
  revert e. induction v as [| b | n | s | items IH | fields _] using json_all;
    intro e; cbn [json_to_string]; try discriminate.
  - destruct b; discriminate.
  - destruct (sequence _) as [e' | parts] eqn:Hseq; [| discriminate].
    intro H; injection H as <-.
    refine (sequence_raises _ _ _ Hseq).
    clear Hseq. induction IH as [| item items Hitem _ IHitems]; constructor.
    + intros e'' H. destruct item; try discriminate H; apply (Hitem _ H).
    + exact IHitems.
  - destruct (has_key "toString" fields); [| discriminate].
    intro H; injection H as <-. eauto.
Qed.

Lemma template_raises (v : jsval) (e : exn) :
  template v = inl e -> exists text, e = TypeError text.
Proof.
  destruct v as [j |]; simpl; [apply json_to_string_raises | discriminate].
Qed.

Lemma contents_path_raises (username repo_name file_path : jsval) (e : exn) :
  contents_path username repo_name file_path = inl e -> exists text, e = TypeError text.
Proof.
  unfold contents_path.
  destruct (template username) as [e0 | owner] eqn:H0.
  { intro H; injection H as <-. apply (template_raises _ _ H0). }
  destruct (template repo_name) as [e1 | repo] eqn:H1.
  { intro H; injection H as <-. apply (template_raises _ _ H1). }
  destruct (template file_path) as [e2 | path] eqn:H2; [| discriminate].
  intro H; injection H as <-. apply (template_raises _ _ H2).
Qed.

Lemma Buffer_from_value_raises (node : ObjectBytes) (value : jsval) (e : exn) :
  Buffer_from_value node value = inl e -> exists text, e = TypeError text.
Proof.
  unfold Buffer_from_value.
  destruct value as [[| b | n | s | items | fields] |];
    try (intro H; injection H as <-; eauto; fail); try discriminate.
  - destruct (node (JArr items)); [| discriminate].
    intro H; injection H as <-. eauto.
  - destruct (node (JObj fields)); [| discriminate].
    intro H; injection H as <-. eauto.
Qed.

Lemma settle_rejection (reply : Reply) (e : exn) :
  settle reply = inl e -> exists response text, e = AxiosError response text.
Proof.
  destruct reply as [st d | m]; unfold settle.
  - destruct (validateStatus st); [discriminate |].
    intro H; injection H as <-. eauto.
  - intro H; injection H as <-. eauto.
Qed.

Lemma settle_axios (reply : Reply) (e : exn) :
  settle reply = inl e -> isAxiosError e = true.
Proof.
  intro H. destruct (settle_rejection reply e H) as (r & t & ->). reflexivity.
Qed.

Lemma reported_other (e : exn) : isAxiosError e = false -> reported e = inl e.
Proof. destruct e; simpl; [reflexivity | discriminate | reflexivity]. Qed.

Lemma reported_rejection (response : option AxiosResponse) (text : string) :
  (exists detail,
     reported (AxiosError response text) = inr (failure detail))
  \/ (exists m, reported (AxiosError response text) = inl (TypeError m)).
Proof.
  destruct response as [response |]; simpl.
  - destruct (get_prop (data response) "message") as [e | detail] eqn:H.
    + right. destruct (get_prop_raises _ _ _ H) as (m & ->). eauto.
    + unfold shown_detail.
      destruct (template (coalesce detail (Some (JStr text)))) as [e | shown] eqn:Ht.
      * right. destruct (template_raises _ _ Ht) as (m & ->). eauto.
      * left. eauto.
  - left. eauto.
Qed.

(** How a branch that passed its guard can end after its last settled
    call. *)
Lemma finish_cases (reply : Reply) :
  (exists response, settle reply = inr response
                    /\ finish (settle reply) = inr (success response))
  \/ (exists detail, finish (settle reply) = inr (failure detail))
  \/ (exists m, finish (settle reply) = inl (TypeError m)).
Proof.
  destruct (settle reply) as [e | response] eqn:H.
  - destruct (settle_rejection reply e H) as (response & text & ->).
    cbn [finish].
    destruct (reported_rejection response text) as [(d & ->) | (m & ->)]; eauto.
  - left. eauto.
Qed.

Lemma finish_thrown (reply : Reply) (e : exn) :
  finish (settle reply) = inl e -> exists m, e = TypeError m.
Proof.
  intro H.
  destruct (finish_cases reply) as [(r & _ & H') | [(d & H') | (m & H')]];
    rewrite H' in H; try discriminate H.
  injection H as <-. eauto.
Qed.

Lemma reported_thrown (error e : exn) :
  isAxiosError error = true -> reported error = inl e -> exists m, e = TypeError m.
Proof.
  destruct error as [c t | response t | t]; try discriminate. intros _ H.
  destruct (reported_rejection response t) as [(d & H') | (m & H')];
    rewrite H' in H; [discriminate H |].
  injection H as <-. eauto.
Qed.

Lemma finish_returned (reply : Reply) (result : CallToolResult) :
  finish (settle reply) = inr result ->
  (exists response, settle reply = inr response /\ result = success response)
  \/ (exists detail, result = failure detail).
Proof.
  intro H.
  destruct (finish_cases reply) as [(r & Hs & H') | [(d & H') | (m & H')]];
    rewrite H' in H; try discriminate H; injection H as <-; eauto.
Qed.

Lemma reported_returned (error : exn) (result : CallToolResult) :
  reported error = inr result -> exists detail, result = failure detail.
Proof.
  destruct error as [c t | response t | t]; try discriminate. intro H.
  destruct (reported_rejection response t) as [(d & H') | (m & H')];
    rewrite H' in H; [| discriminate H].
  injection H as <-. eauto.
Qed.

(** ** The runs of the three branches *)

Lemma CallTool_get_user (node : ObjectBytes) (arguments : option GithubToolArguments) :
  CallTool node "get_user" arguments = get_user arguments.
Proof. reflexivity. Qed.

Lemma CallTool_create_repo (node : ObjectBytes)
    (arguments : option GithubToolArguments) :
  CallTool node "create_repo" arguments = create_repo arguments.
Proof. reflexivity. Qed.

Lemma CallTool_push_to_repo (node : ObjectBytes)
    (arguments : option GithubToolArguments) :
  CallTool node "push_to_repo" arguments = push_to_repo node arguments.
Proof. reflexivity. Qed.

Lemma get_user_guard (node : ObjectBytes) (upstream : Upstream)
    (args : GithubToolArguments) :
  falsy (assoc "username" args) = true ->
  invoke upstream (CallTool node "get_user" (Some args)) =
  ([], inl (McpError InvalidParams "Username is required")).
Proof.
  intro H. rewrite CallTool_get_user. unfold invoke, get_user. steps.
  rewrite H. reflexivity.
Qed.

Lemma get_user_run (node : ObjectBytes) (upstream : Upstream)
    (args : GithubToolArguments) :
  falsy (assoc "username" args) = false ->
  invoke upstream (CallTool node "get_user" (Some args)) =
  match template (assoc "username" args) with
  | inl e => ([], inl e)
  | inr user =>
      ([user_request user], finish (settle (upstream [] (user_request user))))
  end.
Proof.
  intro Hu. rewrite CallTool_get_user. unfold invoke, get_user. steps.
  rewrite Hu. unfold axios_get. run_steps.
  destruct (template (assoc "username" args)) as [e | user] eqn:Ht.
  - run_steps. destruct (template_raises _ _ Ht) as (m & ->). reflexivity.
  - run_steps. unfold user_request.
    destruct (settle (upstream [] _)) as [e | response]; run_steps; reflexivity.
Qed.

Lemma create_repo_guard (node : ObjectBytes) (upstream : Upstream)
    (args : GithubToolArguments) :
  falsy (assoc "repo_name" args) = true ->
  invoke upstream (CallTool node "create_repo" (Some args)) =
  ([], inl (McpError InvalidParams "Repository name is required")).
Proof.
  intro H. rewrite CallTool_create_repo. unfold invoke, create_repo. steps.
  rewrite H. reflexivity.
Qed.

Lemma create_repo_run (node : ObjectBytes) (upstream : Upstream)
    (args : GithubToolArguments) :
  falsy (assoc "repo_name" args) = false ->
  invoke upstream (CallTool node "create_repo" (Some args)) =
  ([create_request args], finish (settle (upstream [] (create_request args)))).
Proof.
  intro Hr. rewrite CallTool_create_repo. unfold invoke, create_repo. steps.
  rewrite Hr. unfold axios_post, create_request. run_steps.
  destruct (settle (upstream [] _)) as [e | response]; run_steps; reflexivity.
Qed.

Lemma push_to_repo_guard (node : ObjectBytes) (upstream : Upstream)
    (args : GithubToolArguments) :
  falsy (assoc "repo_name" args) || falsy (assoc "file_path" args)
    || falsy (assoc "content" args) = true ->
  invoke upstream (CallTool node "push_to_repo" (Some args)) =
  ([], inl (McpError InvalidParams
              "Repository name, file path, and content are required")).
Proof.
  intro H. rewrite CallTool_push_to_repo. unfold invoke, push_to_repo. steps.
  rewrite H. reflexivity.
Qed.

Lemma push_ready_or_not (args : GithubToolArguments) :
  push_ready args
  \/ falsy (assoc "repo_name" args) || falsy (assoc "file_path" args)
       || falsy (assoc "content" args) = true.
Proof.
  unfold push_ready.
  destruct (falsy (assoc "repo_name" args)), (falsy (assoc "file_path" args)),
    (falsy (assoc "content" args)); simpl; auto.
Qed.

Lemma push_to_repo_ready (node : ObjectBytes) (args : GithubToolArguments) :
  push_ready args ->
  push_to_repo node (Some args)
    = try_catch
        (push_to_repo_try node (Some args) (assoc "repo_name" args)
           (assoc "file_path" args) (assoc "content" args))
        catch_upstream.
Proof.
  intros (Hr & Hf & Hc). unfold push_to_repo. cbn [read bind].
  rewrite Hr, Hf, Hc. reflexivity.
Qed.

(** The lookup under its [try]: whatever it raises, [sha] stays
    undefined and the handler goes on. *)
Lemma lookup_swallowed (upstream : Upstream) (made : list Request)
    (login : jsval) (args : GithubToolArguments) :
  run upstream made
    (try_catch
       (existing_file_sha login (assoc "repo_name" args) (assoc "file_path" args))
       (fun _ => Return undefined))
  = match contents_url login args with
    | inl _ => (made, inr undefined)
    | inr target =>
        ((made ++ [lookup_request target])%list,
         inr (sha_found (settle (upstream made (lookup_request target)))))
    end.
Proof.
  unfold existing_file_sha, axios_get, contents_url. run_steps.
  destruct (contents_path login (assoc "repo_name" args) (assoc "file_path" args))
    as [e | target]; run_steps; [reflexivity |].
  unfold lookup_request.
  destruct (settle (upstream made _)) as [e | fileResponse]; run_steps;
    [reflexivity |].
  cbn [sha_found]. destruct (get_prop (data fileResponse) "sha"); reflexivity.
Qed.

Lemma push_to_repo_run (node : ObjectBytes) (upstream : Upstream)
    (args : GithubToolArguments) :
  push_ready args ->
  invoke upstream (CallTool node "push_to_repo" (Some args)) =
  match settle (upstream [] identity_request) with
  | inl error => ([identity_request], reported error)
  | inr userResponse =>
      match get_prop (data userResponse) "login" with
      | inl e => ([identity_request], inl e)
      | inr login =>
          match contents_url login args with
          | inl e => ([identity_request], inl e)
          | inr target =>
              let lookup := lookup_request target in
              let sha := sha_found (settle (upstream [identity_request] lookup)) in
              match Buffer_from_value node (assoc "content" args) with
              | inl e => ([identity_request; lookup], inl e)
              | inr bytes =>
                  let put := put_request target args bytes sha in
                  ([identity_request; lookup; put],
                   finish (settle (upstream [identity_request; lookup] put)))
              end
          end
      end
  end.
Proof.
  intro Hready. rewrite CallTool_push_to_repo, (push_to_repo_ready node args Hready).
  unfold invoke. rewrite run_try_catch.
  unfold push_to_repo_try. rewrite run_bind. unfold axios_get at 1.
  rewrite run_request. fold identity_request. cbn [app].
  destruct (settle (upstream [] identity_request)) as [e | userResponse].
  { rewrite run_catch_upstream. reflexivity. }
  rewrite run_bind, run_of_result.
  destruct (get_prop (data userResponse) "login") as [e | login] eqn:Hlogin.
  { rewrite run_catch_upstream.
    destruct (get_prop_raises _ _ _ Hlogin) as (m & ->). reflexivity. }
  rewrite run_bind, lookup_swallowed.
  fold (contents_url login args).
  destruct (contents_url login args) as [e | target] eqn:Hurl.
  { rewrite run_bind, run_of_result, run_catch_upstream.
    destruct (contents_path_raises _ _ _ _ Hurl) as (m & ->). reflexivity. }
  cbn [app]. rewrite run_bind, run_of_result. steps.
  rewrite run_bind, run_of_result.
  destruct (Buffer_from_value node (assoc "content" args)) as [e | bytes] eqn:Hbytes.
  { rewrite run_catch_upstream.
    destruct (Buffer_from_value_raises _ _ _ Hbytes) as (m & ->). reflexivity. }
  unfold axios_put. rewrite run_bind, run_request. cbn [app].
  fold (put_body args bytes
          (sha_found (settle (upstream [identity_request] (lookup_request target))))).
  fold (put_request target args bytes
          (sha_found (settle (upstream [identity_request] (lookup_request target))))).
  cbv zeta.
  destruct (settle (upstream [identity_request; lookup_request target] _))
    as [e | response]; run_steps; reflexivity.
Qed.

(** ** Base64 *)

Ltac euclid := zify; Z.to_euclidean_division_equations; lia.

Lemma sextets_bounded (b0 b1 b2 : N) :
  (b0 < 256 -> b1 < 256 -> b2 < 256 ->
   let '(s0, s1, s2, s3) := sextets b0 b1 b2 in
   s0 < 64 /\ s1 < 64 /\ s2 < 64 /\ s3 < 64)%N.
Proof.
  intros H0 H1 H2. unfold sextets.
  repeat split; euclid.
Qed.

Lemma octets_sextets (b0 b1 b2 : N) :
  (b0 < 256 -> b1 < 256 -> b2 < 256 ->
   let '(s0, s1, s2, s3) := sextets b0 b1 b2 in
   octets s0 s1 s2 s3 = (b0, b1, b2))%N.
Proof.
  intros H0 H1 H2. unfold sextets, octets.
  repeat f_equal; euclid.
Qed.

Lemma below_64 (n : N) : (n < 64)%N -> In n (map N.of_nat (seq 0 64)).
Proof.
  intro H. apply in_map_iff. exists (N.to_nat n). split.
  - apply N2Nat.id.
  - apply in_seq. lia.
Qed.

Lemma base64_index_char (n : N) :
  (n < 64)%N -> base64_index (base64_char n) = Some n.
Proof.
  intro H.
  assert (Hall :
    forallb (fun n => match base64_index (base64_char n) with
                      | Some m => N.eqb m n
                      | None => false
                      end) (map N.of_nat (seq 0 64)) = true) by (vm_compute; reflexivity).
  rewrite forallb_forall in Hall. specialize (Hall n (below_64 n H)).
  destruct (base64_index (base64_char n)) as [m |]; [| discriminate].
  apply N.eqb_eq in Hall. congruence.
Qed.

Lemma base64_char_not_pad (n : N) :
  (n < 64)%N -> Ascii.eqb (base64_char n) pad = false.
Proof.
  intro H.
  assert (Hall :
    forallb (fun n => negb (Ascii.eqb (base64_char n) pad))
      (map N.of_nat (seq 0 64)) = true) by (vm_compute; reflexivity).
  rewrite forallb_forall in Hall. specialize (Hall n (below_64 n H)).
  apply negb_true_iff in Hall. exact Hall.
Qed.

Lemma byte_below_256 (b : Byte.byte) : (Byte.to_N b < 256)%N.
Proof. pose proof (Byte.to_N_bounded b). lia. Qed.

Lemma byte_of_to_N (b : Byte.byte) (n : N) : n = Byte.to_N b -> byte_of_N n = b.
Proof. intros ->. unfold byte_of_N. rewrite Byte.of_to_N. reflexivity. Qed.

Lemma list_ind3 {A : Type} (P : list A -> Prop) :
  P [] ->
  (forall a, P [a]) ->
  (forall a b, P [a; b]) ->
  (forall a b c rest, P rest -> P (a :: b :: c :: rest)) ->
  forall l, P l.
Proof.
  intros H0 H1 H2 H3.
  fix IH 1. intros [| a [| b [| c rest]]].
  - exact H0.
  - apply H1.
  - apply H2.
  - apply H3, IH.
Qed.

Lemma base64_decode_of_bytes (bytes : list Byte.byte) :
  base64_decode (base64_of_bytes bytes) = Some bytes.
Proof.
  induction bytes as [| b0 | b0 b1 | b0 b1 b2 rest IH] using list_ind3.
  - reflexivity.
  - pose proof (byte_below_256 b0) as H0.
    cbn [base64_of_bytes sextets base64_decode].
    change (Ascii.eqb pad pad) with true. cbn iota.
    rewrite !base64_index_char by euclid.
    cbn [octets]. f_equal. f_equal. apply byte_of_to_N. euclid.
  - pose proof (byte_below_256 b0) as H0. pose proof (byte_below_256 b1) as H1.
    cbn [base64_of_bytes sextets base64_decode].
    change (Ascii.eqb pad pad) with true. cbn iota.
    rewrite base64_char_not_pad by euclid.
    rewrite !base64_index_char by euclid.
    cbn [octets]. repeat f_equal; apply byte_of_to_N; euclid.
  - pose proof (byte_below_256 b0) as H0. pose proof (byte_below_256 b1) as H1.
    pose proof (byte_below_256 b2) as H2.
    cbn [base64_of_bytes sextets base64_decode].
    rewrite base64_char_not_pad by euclid.
    rewrite !base64_index_char by euclid.
    fold base64_of_bytes. rewrite IH.
    cbn [octets]. repeat f_equal; apply byte_of_to_N; euclid.
Qed.

(** RFC 4648 test vectors. *)
Example base64_vectors :
  map (fun s => Buffer_toString_base64 (Buffer_from s))
    [EmptyString; "f"; "fo"; "foo"; "foob"; "fooba"; "foobar"]
  = [EmptyString; "Zg=="; "Zm8="; "Zm9v"; "Zm9vYg=="; "Zm9vYmE="; "Zm9vYmFy"].
Proof. reflexivity. Qed.

(** ** Pretty-printed JSON on samples *)

Example stringify_array :
  JSON_stringify (JArr [JNum "1"; JBool true; JNull; JArr []; JObj []])
  = "[" ++ newline ++ "  1," ++ newline ++ "  true," ++ newline ++ "  null,"
    ++ newline ++ "  []," ++ newline ++ "  {}" ++ newline ++ "]".
Proof. reflexivity. Qed.

Example stringify_object :
  JSON_stringify (JObj [("login", JStr "octocat"); ("plan", JObj [("seats", JNum "3")])])
  = "{" ++ newline
    ++ "  " ++ dquote ++ "login" ++ dquote ++ ": " ++ dquote ++ "octocat" ++ dquote
    ++ "," ++ newline
    ++ "  " ++ dquote ++ "plan" ++ dquote ++ ": {" ++ newline
    ++ "    " ++ dquote ++ "seats" ++ dquote ++ ": 3" ++ newline
    ++ "  }" ++ newline ++ "}".
Proof. reflexivity. Qed.

Example quote_escapes :
  quote (String (ascii_of_N 9) ("a\b" ++ dquote ++ String (ascii_of_N 1) "z"))
  = dquote ++ "\ta\\b\" ++ dquote ++ "\u0001z" ++ dquote.
Proof. reflexivity. Qed.

(** ** Strings as bytes *)

Lemma Buffer_from_length_below (n : nat) :
  forall s, String.length s <= n -> length (Buffer_from s) = String.length s.
Proof.
  induction n as [| n IH]; intros [| b0 rest] Hn; try reflexivity.
  - simpl in Hn. lia.
  - cbn [String.length] in Hn. cbn [Buffer_from].
    assert (Hrest : length (Buffer_from rest) = String.length rest)
      by (apply IH; lia).
    destruct rest as [| b1 [| b2 rest']]; try (cbn [length String.length] in *; lia).
    destruct (lone_surrogate b0 b1 b2).
    + rewrite length_app. cbn [replacement length String.length] in *.
      rewrite (IH rest') by lia. reflexivity.
    + cbn [length String.length] in *. lia.
Qed.

Lemma Buffer_from_length (s : string) : length (Buffer_from s) = String.length s.
Proof. apply (Buffer_from_length_below (String.length s)). lia. Qed.

(** Without lone surrogates [Buffer.from] changes nothing: the bytes
    are the string. *)
Lemma Buffer_from_faithful (s : string) :
  lone_surrogate_free s = true -> Buffer_from s = list_byte_of_string s.
Proof.
  induction s as [| b0 rest IH]; [reflexivity |].
  cbn [lone_surrogate_free Buffer_from]. intro H.
  apply andb_true_iff in H. destruct H as [Hhead Hrest].
  specialize (IH Hrest).
  assert (Hgoal : byte_of_ascii b0 :: Buffer_from rest
                  = list_byte_of_string (String b0 rest)).
  { rewrite IH. reflexivity. }
  destruct rest as [| b1 [| b2 rest']]; try exact Hgoal.
  apply negb_true_iff in Hhead. rewrite Hhead. exact Hgoal.
Qed.

Example lone_surrogate_replaced :
  Buffer_from lone_high = replacement
  /\ Buffer_from replacement_character = replacement
  /\ Buffer_toString_base64 (Buffer_from lone_high) = "77+9".
Proof. repeat split. Qed.

Example lone_surrogate_escaped :
  quote ("a" ++ lone_high) = dquote ++ "a\ud800" ++ dquote.
Proof. reflexivity. Qed.

(** ** Listed tools and their guards *)

Lemma declared_tool (tool : Tool) :
  In tool tools ->
  name tool = "get_user" /\ required (inputSchema tool) = ["username"]
  \/ name tool = "create_repo" /\ required (inputSchema tool) = ["repo_name"]
  \/ name tool = "push_to_repo"
     /\ required (inputSchema tool) = ["repo_name"; "file_path"; "content"].
Proof.
  intros [<- | [<- | [<- | []]]]; simpl; auto.
Qed.

Lemma undeclared_tool (node : ObjectBytes) (tool : string)
    (arguments : option GithubToolArguments) :
  ~ In tool (map name tools) ->
  CallTool node tool arguments
    = Throw (McpError MethodNotFound ("Unknown tool: " ++ tool)).
Proof.
  intro H. unfold CallTool.
  destruct (String.eqb_spec tool "get_user") as [-> | _].
  { exfalso; apply H; simpl; auto. }
  destruct (String.eqb_spec tool "create_repo") as [-> | _].
  { exfalso; apply H; simpl; auto. }
  destruct (String.eqb_spec tool "push_to_repo") as [-> | _].
  { exfalso; apply H; simpl; auto. }
  reflexivity.
Qed.

Lemma first_missing_guard (tool : Tool) (args : GithubToolArguments) (key : string) :
  In tool tools ->
  first_missing tool args = Some key ->
  name tool = "get_user" /\ falsy (assoc "username" args) = true
  \/ name tool = "create_repo" /\ falsy (assoc "repo_name" args) = true
  \/ name tool = "push_to_repo"
     /\ falsy (assoc "repo_name" args) || falsy (assoc "file_path" args)
          || falsy (assoc "content" args) = true.
Proof.
  intros Hin Hfirst. unfold first_missing in Hfirst.
  destruct (declared_tool tool Hin) as [[Hn Hr] | [[Hn Hr] | [Hn Hr]]];
    rewrite Hr in Hfirst; cbn [find] in Hfirst.
  - left. split; [exact Hn |].
    destruct (falsy (assoc "username" args)); [reflexivity | discriminate].
  - right; left. split; [exact Hn |].
    destruct (falsy (assoc "repo_name" args)); [reflexivity | discriminate].
  - right; right. split; [exact Hn |].
    destruct (falsy (assoc "repo_name" args)); [reflexivity |].
    destruct (falsy (assoc "file_path" args)); [reflexivity |].
    destruct (falsy (assoc "content" args)); [reflexivity | discriminate].
Qed.

Lemma first_missing_none (tool : Tool) (args : GithubToolArguments) :
  In tool tools ->
  first_missing tool args = None ->
  name tool = "get_user" /\ falsy (assoc "username" args) = false
  \/ name tool = "create_repo" /\ falsy (assoc "repo_name" args) = false
  \/ name tool = "push_to_repo" /\ push_ready args.
Proof.
  intros Hin Hfirst. unfold first_missing in Hfirst.
  destruct (declared_tool tool Hin) as [[Hn Hr] | [[Hn Hr] | [Hn Hr]]];
    rewrite Hr in Hfirst; cbn [find] in Hfirst.
  - left. split; [exact Hn |].
    destruct (falsy (assoc "username" args)); [discriminate | reflexivity].
  - right; left. split; [exact Hn |].
    destruct (falsy (assoc "repo_name" args)); [discriminate | reflexivity].
  - right; right. split; [exact Hn |]. unfold push_ready.
    destruct (falsy (assoc "repo_name" args)); [discriminate |].
    destruct (falsy (assoc "file_path" args)); [discriminate |].
    destruct (falsy (assoc "content" args)); [discriminate | auto].
Qed.

(** ** Every tool call goes one of the ways of [ending] *)

Lemma CallTool_ends (node : ObjectBytes) (upstream : Upstream) (tool : string)
    (arguments : option GithubToolArguments) :
  ending node upstream tool arguments
    (fst (invoke upstream (CallTool node tool arguments)))
    (snd (invoke upstream (CallTool node tool arguments))).
Proof.
  destruct (in_dec string_dec tool (map name tools)) as [Hin | Hout].
  2: { rewrite (undeclared_tool node tool arguments Hout).
       exact (unknown_tool node upstream tool arguments Hout). }
  destruct arguments as [args |].
  2: { assert (Hin' := Hin).
       destruct Hin as [<- | [<- | [<- | []]]];
         cbn [name get_user_tool create_repo_tool push_to_repo_tool] in *;
         exact (no_mapping node upstream _ None _ Hin' eq_refl). }
  assert (Hin' := Hin).
  destruct Hin as [<- | [<- | [<- | []]]];
    cbn [name get_user_tool create_repo_tool push_to_repo_tool] in *.
  - destruct (falsy (assoc "username" args)) eqn:H.
    + rewrite (get_user_guard node upstream args H).
      exact (guard_failed node upstream "get_user" (Some args) args Hin' eq_refl).
    + rewrite (get_user_run node upstream args H).
      destruct (template (assoc "username" args)) as [e | user] eqn:Ht.
      * destruct (template_raises _ _ Ht) as (m & ->).
        exact (user_unnamed node upstream "get_user" (Some args) args m
                 eq_refl eq_refl H Ht).
      * exact (user_read node upstream "get_user" (Some args) args user
                 eq_refl eq_refl H Ht).
  - destruct (falsy (assoc "repo_name" args)) eqn:H.
    + rewrite (create_repo_guard node upstream args H).
      exact (guard_failed node upstream "create_repo" (Some args) args Hin' eq_refl).
    + rewrite (create_repo_run node upstream args H).
      exact (repo_created node upstream "create_repo" (Some args) args
               eq_refl eq_refl H).
  - destruct (push_ready_or_not args) as [H | H].
    2: { rewrite (push_to_repo_guard node upstream args H).
         exact (guard_failed node upstream "push_to_repo" (Some args) args
                  Hin' eq_refl). }
    rewrite (push_to_repo_run node upstream args H).
    destruct (settle (upstream [] identity_request)) as [e | userResponse] eqn:Hid.
    { exact (identity_rejected node upstream "push_to_repo" (Some args) args e
               eq_refl eq_refl H Hid). }
    destruct (get_prop (data userResponse) "login") as [e | login] eqn:Hlogin.
    { destruct (get_prop_raises _ _ _ Hlogin) as (m & ->).
      exact (identity_unreadable node upstream "push_to_repo" (Some args) args
               userResponse m eq_refl eq_refl H Hid Hlogin). }
    assert (Hknown : identity_known upstream login) by (exists userResponse; auto).
    destruct (contents_url login args) as [e | target] eqn:Hurl.
    { destruct (contents_path_raises _ _ _ _ Hurl) as (m & ->).
      exact (path_unbuilt node upstream "push_to_repo" (Some args) args login m
               eq_refl eq_refl H Hknown Hurl). }
    destruct (Buffer_from_value node (assoc "content" args)) as [e | bytes] eqn:Hbytes.
    { destruct (Buffer_from_value_raises _ _ _ Hbytes) as (m & ->).
      exact (content_refused node upstream "push_to_repo" (Some args) args login
               target m eq_refl eq_refl H Hknown Hurl Hbytes). }
    refine (pushed node upstream "push_to_repo" (Some args) args login target bytes
              eq_refl eq_refl _).
    exact (conj H (conj Hknown (conj Hurl Hbytes))).
Qed.

Lemma ending_thrown (node : ObjectBytes) (upstream : Upstream) (tool : string)
    (arguments : option GithubToolArguments) (calls : list Request) (e : exn) :
  ending node upstream tool arguments calls (inl e) ->
  (exists code m, e = McpError code m /\ calls = [])
  \/ (exists m, e = TypeError m).
Proof.
  intro E. remember (inl e) as outcome eqn:Ho.
  destruct E; try (injection Ho as <-); eauto;
    try (right; apply (finish_thrown _ _ Ho)).
  right. apply (reported_thrown error e); [| exact Ho].
  eapply settle_axios; eassumption.
Qed.

Lemma ending_protocol_error (node : ObjectBytes) (upstream : Upstream)
    (tool : string) (arguments : option GithubToolArguments)
    (calls : list Request) (code : ErrorCode) (text : string) :
  ending node upstream tool arguments calls (inl (McpError code text)) ->
  code = MethodNotFound /\ ~ In tool (map name tools)
  \/ code = InvalidParams /\ In tool (map name tools)
     /\ text = guard_message tool /\ exists args, arguments = Some args.
Proof.
  intro E. remember (inl (McpError code text)) as outcome eqn:Ho.
  destruct E;
    try (injection Ho as <- <-; now eauto 7);
    try discriminate Ho;
    exfalso;
    try (destruct (finish_thrown _ _ Ho) as (m' & Hm); discriminate Hm).
  match goal with
  | Hs : settle _ = inl error |- _ =>
      destruct (reported_thrown error _ (settle_axios _ _ Hs) Ho) as (m' & Hm)
  end.
  discriminate Hm.
Qed.

Lemma ending_returned (node : ObjectBytes) (upstream : Upstream) (tool : string)
    (arguments : option GithubToolArguments) (calls : list Request)
    (result : CallToolResult) :
  ending node upstream tool arguments calls (inr result) ->
  (exists response,
      last_response upstream [] calls = Some response /\ result = success response)
  \/ (exists detail, result = failure detail).
Proof.
  intro E. remember (inr result) as outcome eqn:Ho.
  destruct E; try discriminate Ho.
  - destruct (finish_returned _ _ Ho) as [(r & Hs & ->) | (d & ->)]; [left | eauto].
    exists r. split; [| reflexivity]. cbn [last_response]. rewrite Hs. reflexivity.
  - destruct (finish_returned _ _ Ho) as [(r & Hs & ->) | (d & ->)]; [left | eauto].
    exists r. split; [| reflexivity]. cbn [last_response]. rewrite Hs. reflexivity.
  - right. eapply reported_returned; eassumption.
  - destruct (finish_returned _ _ Ho) as [(r & Hs & ->) | (d & ->)]; [left | eauto].
    exists r. split; [| reflexivity]. cbn [last_response app].
    subst put sha lookup. rewrite Hs. reflexivity.
Qed.

Lemma ending_calls (node : ObjectBytes) (upstream : Upstream) (tool : string)
    (arguments : option GithubToolArguments) (calls : list Request)
    (outcome : exn + CallToolResult) :
  ending node upstream tool arguments calls outcome ->
  calls = []
  \/ (exists user, tool = "get_user" /\ calls = [user_request user])
  \/ (exists args, tool = "create_repo" /\ calls = [create_request args])
  \/ tool = "push_to_repo" /\ calls = [identity_request]
  \/ (exists target,
        tool = "push_to_repo" /\ calls = [identity_request; lookup_request target])
  \/ (exists args target bytes sha,
        tool = "push_to_repo"
        /\ arguments = Some args
        /\ push_ready args
        /\ Buffer_from_value node (assoc "content" args) = inr bytes
        /\ calls = [identity_request; lookup_request target;
                    put_request target args bytes sha]).
Proof.
  intro E.
  destruct E as [? | ? ? ? | ? ? ? | ? ? ? ? ? ? | args user Ht ? ? ?
                 | args Ht ? ? | args ? Ht ? ? ? | args ? ? Ht ? ? ? ?
                 | args ? ? Ht ? ? ? ? | args login target ? Ht ? ? ? ? ?
                 | args login target bytes Ht Ha (Hready & ? & ? & Hbytes)].
  - left; reflexivity.
  - left; reflexivity.
  - left; reflexivity.
  - left; reflexivity.
  - right; left. exists user. auto.
  - right; right; left. exists args. auto.
  - right; right; right; left. auto.
  - right; right; right; left. auto.
  - right; right; right; left. auto.
  - right; right; right; right; left. exists target. auto.
  - right; right; right; right; right. exists args, target, bytes, sha.
    split; [exact Ht |]. split; [exact Ha |]. split; [exact Hready |].
    split; [exact Hbytes | reflexivity].
Qed.

Lemma push_to_repo_written (node : ObjectBytes) (upstream : Upstream)
    (args : GithubToolArguments) (login : jsval) (target : string) (bytes : Buffer) :
  push_reaches_write node upstream args login target bytes ->
  let lookup := lookup_request target in
  let sha := sha_found (settle (upstream [identity_request] lookup)) in
  let put := put_request target args bytes sha in
  invoke upstream (CallTool node "push_to_repo" (Some args))
    = ([identity_request; lookup; put],
       finish (settle (upstream [identity_request; lookup] put))).
Proof.
  intros (Hready & (userResponse & Hsettle & Hlogin) & Hurl & Hbytes).
  rewrite (push_to_repo_run node upstream args Hready).
  rewrite Hsettle, Hlogin, Hurl. cbv zeta. rewrite Hbytes. reflexivity.
Qed.

Lemma push_to_repo_calls (node : ObjectBytes) (upstream : Upstream)
    (arguments : option GithubToolArguments) (r : Request) :
  In r (fst (invoke upstream (CallTool node "push_to_repo" arguments))) ->
  method r = PUT ->
  exists args target bytes sha,
    arguments = Some args
    /\ push_ready args
    /\ Buffer_from_value node (assoc "content" args) = inr bytes
    /\ fst (invoke upstream (CallTool node "push_to_repo" arguments))
       = [identity_request; lookup_request target; r]
    /\ r = put_request target args bytes sha.
Proof.
  intros Hin Hput.
  destruct (ending_calls _ _ _ _ _ _
              (CallTool_ends node upstream "push_to_repo" arguments))
    as [H | [(a & Ht & H) | [(a & Ht & H) | [(Ht & H) | [(t & Ht & H)
        | (a & t & b & s & Ht & Ha & Hready & Hbytes & H)]]]]];
    try discriminate Ht; rewrite H in *.
  - destruct Hin.
  - destruct Hin as [<- | []]. discriminate Hput.
  - destruct Hin as [<- | [<- | []]]; discriminate Hput.
  - destruct Hin as [<- | [<- | [<- | []]]]; try discriminate Hput.
    exists a, t, b, s. auto.
Qed.

(** The sample push gets as far as its write once the identity is
    known. *)
Lemma readme_reaches_write (upstream : Upstream) :
  identity_known upstream (Some (JStr "octocat")) ->
  push_reaches_write strings_only upstream readme_args (Some (JStr "octocat"))
    readme_url readme_bytes.
Proof.
  intro Hid. split; [repeat split |]. split; [exact Hid |]. split; reflexivity.
Qed.

Lemma octocat_known (lookup write : Reply) :
  identity_known (scripted octocat lookup write) (Some (JStr "octocat")).
Proof. eexists. split; reflexivity. Qed.

(** ** Unknown tools *)

(** C9. A call that names a tool outside the declared ones ([get_user],
    [create_repo], [push_to_repo]) ends in the protocol error
    [MethodNotFound] with no upstream call made, whatever the arguments
    and the upstream; it never returns a result object. *)
Theorem unknown_tool_rejected (node : ObjectBytes) (upstream : Upstream)
    (tool : string) (arguments : option GithubToolArguments) :
  ~ In tool (map name tools) ->
  invoke upstream (CallTool node tool arguments)
    = ([], inl (McpError MethodNotFound ("Unknown tool: " ++ tool))).
Proof.
  intro H. rewrite (undeclared_tool node tool arguments H). reflexivity.
Qed.

Lemma unknown_tool_rejected_witness :
  ~ In "delete_repo" (map name tools)
  /\ invoke (scripted octocat not_found written)
       (CallTool strings_only "delete_repo" (Some readme_args))
     = ([], inl (McpError MethodNotFound "Unknown tool: delete_repo")).
Proof.
  assert (H : ~ In "delete_repo" (map name tools)).
  { simpl. intros [H | [H | [H | []]]]; discriminate H. }
  split; [exact H |].
  exact (unknown_tool_rejected strings_only (scripted octocat not_found written)
           "delete_repo" (Some readme_args) H).
Defined.

(** ** Resources *)

(** C10. Reading a resource raises the protocol error [InvalidRequest]
    for every URI, and the two listings return empty collections; none of
    them calls the upstream. *)
Theorem resources_are_absent (upstream : Upstream) (uri : string) :
  invoke upstream (ReadResource uri)
    = ([], inl (McpError InvalidRequest ("Invalid URI format: " ++ uri)))
  /\ invoke upstream ListResources = ([], inr {| resources := [] |})
  /\ invoke upstream ListResourceTemplates
     = ([], inr {| resourceTemplates := [] |}).
Proof. repeat split. Qed.

(** ** [create_repo] *)

(** C7. A [create_repo] call that supplies only [repo_name = "x"] makes
    one upstream call, the POST to [/user/repos], and its body is
    [{name: "x", description: undefined, private: false}]. *)
Theorem create_repo_default_private (node : ObjectBytes) (upstream : Upstream) :
  fst (invoke upstream (CallTool node "create_repo" (Some (only_repo_name "x"))))
    = [ mkRequest POST "/user/repos"
          (Some [ ("name", Some (JStr "x"));
                  ("description", undefined);
                  ("private", Some (JBool false)) ]) ].
Proof.
  rewrite create_repo_run by reflexivity. reflexivity.
Qed.

(** ** Required arguments *)

(** C3, as the handler has it.  For each declared tool, a call without
    an argument mapping, or whose mapping leaves a required field out or
    empty, ends in a protocol-level error with no upstream call made.
    With a mapping the error is [InvalidParams] and its message is fixed
    per tool: it names the one required field of [get_user] and of
    [create_repo], and lists all three required fields of [push_to_repo]
    whichever of them is missing. *)
Theorem missing_required_rejected (node : ObjectBytes) (upstream : Upstream)
    (tool : Tool) :
  In tool tools ->
  (exists e, invoke upstream (CallTool node (name tool) None) = ([], inl e))
  /\ (forall args key,
        first_missing tool args = Some key ->
        invoke upstream (CallTool node (name tool) (Some args))
          = ([], inl (McpError InvalidParams (guard_message (name tool))))).
Proof.
  intro Hin. split.
  - destruct (declared_tool tool Hin) as [[-> _] | [[-> _] | [-> _]]];
      eexists; reflexivity.
  - intros args key Hfirst.
    destruct (first_missing_guard tool args key Hin Hfirst)
      as [[-> H] | [[-> H] | [-> H]]].
    + apply get_user_guard, H.
    + apply create_repo_guard, H.
    + apply push_to_repo_guard, H.
Qed.

Lemma missing_required_rejected_witness :
  (exists e,
     invoke (scripted octocat not_found written)
       (CallTool strings_only "push_to_repo" None)
       = ([], inl e))
  /\ invoke (scripted octocat not_found written)
       (CallTool strings_only "push_to_repo" (Some (only_repo_name "site")))
     = ([], inl (McpError InvalidParams
                   "Repository name, file path, and content are required")).
Proof.
  assert (Hin : In push_to_repo_tool tools) by (simpl; auto).
  destruct (missing_required_rejected strings_only
              (scripted octocat not_found written) push_to_repo_tool Hin)
    as [Hnone Hsome].
  split.
  - exact Hnone.
  - exact (Hsome (only_repo_name "site") "file_path" eq_refl).
Defined.

(** C3, as worded, fails: [push_to_repo] raises one and the same error
    whether [repo_name] or [file_path] is the first field missing, so no
    reading of the message tells which. *)
Lemma missing_field_not_named : ~ missing_field_named.
Proof.
  intros [named H].
  assert (Hin : In push_to_repo_tool tools) by (simpl; auto).
  pose (u := scripted octocat not_found written).
  destruct (H strings_only u push_to_repo_tool no_arguments "repo_name" Hin eq_refl)
    as (c1 & t1 & E1 & N1).
  destruct (H strings_only u push_to_repo_tool (only_repo_name "site") "file_path"
              Hin eq_refl)
    as (c2 & t2 & E2 & N2).
  change (name push_to_repo_tool) with "push_to_repo" in E1, E2.
  rewrite (push_to_repo_guard strings_only u no_arguments eq_refl) in E1.
  rewrite (push_to_repo_guard strings_only u (only_repo_name "site") eq_refl) in E2.
  injection E1 as <- <-. injection E2 as <- <-.
  rewrite N1 in N2. discriminate N2.
Qed.

(** ** [push_to_repo] *)



(** C6, as the handler has it.  When a [push_to_repo] call gets as far
    as its write (its guard passes, the identity is read, the path can be
    built and [Buffer.from] takes the content) and the upstream resolves
    the lookup with a body whose [sha] is ["abc123"], the call makes three
    upstream calls in this order: the identity GET, the GET of the
    contents at the path, and the PUT at the same path; the PUT body has
    [sha: "abc123"], also as transmitted. *)
Theorem existing_file_updated (node : ObjectBytes) (upstream : Upstream)
    (args : GithubToolArguments) (login : jsval) (target : string)
    (bytes : Buffer) (fileResponse : AxiosResponse) :
  push_reaches_write node upstream args login target bytes ->
  settle (upstream [identity_request] (lookup_request target)) = inr fileResponse ->
  get_prop (data fileResponse) "sha" = inr (Some (JStr "abc123")) ->
  let put := put_request target args bytes (Some (JStr "abc123")) in
  fst (invoke upstream (CallTool node "push_to_repo" (Some args)))
    = [identity_request; lookup_request target; put]
  /\ method put = PUT
  /\ url put = url (lookup_request target)
  /\ (exists fields,
        body put = Some fields
        /\ assoc "sha" fields = Some (Some (JStr "abc123"))
        /\ assoc "sha" (transmitted fields) = Some (JStr "abc123")).
Proof.
  intros Hwrite Hlookup Hsha put.
  rewrite (push_to_repo_written node upstream args login target bytes Hwrite).
  rewrite Hlookup. unfold sha_found. rewrite Hsha.
  split; [reflexivity |]. split; [reflexivity |]. split; [reflexivity |].
  exists (put_body args bytes (Some (JStr "abc123"))).
  split; [reflexivity |]. unfold put_body.
  destruct (coalesce (assoc "message" args) (Some (JStr "Update via GitHub MCP")));
    split; reflexivity.
Qed.

Lemma existing_file_updated_witness :
  fst (invoke (scripted octocat existing written)
         (CallTool strings_only "push_to_repo" (Some readme_args)))
  = [ mkRequest GET "/user" None;
      mkRequest GET "/repos/octocat/site/contents/docs/README.md" None;
      mkRequest PUT "/repos/octocat/site/contents/docs/README.md"
        (Some [ ("message", Some (JStr "Update via GitHub MCP"));
                ("content", Some (JStr "IyBIZWxsbw=="));
                ("sha", Some (JStr "abc123")) ]) ].
Proof.
  exact (proj1 (existing_file_updated strings_only (scripted octocat existing written)
                  readme_args (Some (JStr "octocat")) readme_url readme_bytes
                  (mkResponse 200 (JObj [("sha", JStr "abc123")]))
                  (readme_reaches_write _ (octocat_known existing written))
                  eq_refl eq_refl)).
Defined.

(** C6, as worded, fails: the file can be there and the call still make
    fewer than three calls.  When the identity call is rejected the
    handler stops after it, with neither lookup nor write. *)
Lemma existing_file_needs_identity : ~ existing_file_three_calls.
Proof.
  intro H.
  pose (u := scripted (HttpReply 401 (JObj [("message", JStr "Bad credentials")]))
               existing written).
  destruct (H strings_only u (Some readme_args)) as (a & b & c & fields & Hcalls & _).
  - intros made r Hget Hurl. unfold u, scripted. rewrite Hget.
    destruct (String.eqb_spec (url r) "/user") as [Heq | _];
      [contradiction | reflexivity].
  - vm_compute in Hcalls. discriminate Hcalls.
Qed.

(** C2, as the handler has it.  When a [push_to_repo] call gets as far
    as its write and the upstream rejects the lookup of the existing file
    (the path has no file), the call makes three upstream calls: the
    identity GET, the rejected GET of the contents, and the PUT, whose
    [sha] is [undefined] and is not transmitted; the call ends as the PUT
    alone decides. *)
Theorem new_file_created (node : ObjectBytes) (upstream : Upstream)
    (args : GithubToolArguments) (login : jsval) (target : string)
    (bytes : Buffer) (error : exn) :
  push_reaches_write node upstream args login target bytes ->
  settle (upstream [identity_request] (lookup_request target)) = inl error ->
  let lookup := lookup_request target in
  let put := put_request target args bytes undefined in
  invoke upstream (CallTool node "push_to_repo" (Some args))
    = ([identity_request; lookup; put],
       finish (settle (upstream [identity_request; lookup] put)))
  /\ (exists fields,
        body put = Some fields
        /\ assoc "sha" fields = Some undefined
        /\ assoc "sha" (transmitted fields) = None).
Proof.
  intros Hwrite Hlookup lookup put. subst lookup put. split.
  - rewrite (push_to_repo_written node upstream args login target bytes Hwrite).
    rewrite Hlookup. reflexivity.
  - exists (put_body args bytes undefined). split; [reflexivity |]. unfold put_body.
    destruct (coalesce (assoc "message" args) (Some (JStr "Update via GitHub MCP")));
      split; reflexivity.
Qed.

Lemma new_file_created_witness :
  invoke (scripted octocat not_found written)
    (CallTool strings_only "push_to_repo" (Some readme_args))
  = ([ mkRequest GET "/user" None;
       mkRequest GET "/repos/octocat/site/contents/docs/README.md" None;
       mkRequest PUT "/repos/octocat/site/contents/docs/README.md"
         (Some [ ("message", Some (JStr "Update via GitHub MCP"));
                 ("content", Some (JStr "IyBIZWxsbw=="));
                 ("sha", undefined) ]) ],
     inr (success (mkResponse 201 (JObj [("content", JObj [("sha", JStr "def456")])])))).
Proof.
  exact (proj1 (new_file_created strings_only (scripted octocat not_found written)
                  readme_args (Some (JStr "octocat")) readme_url readme_bytes
                  (AxiosError (Some (mkResponse 404 (JObj [("message", JStr "Not Found")])))
                     "Request failed with status code 404")
                  (readme_reaches_write _ (octocat_known not_found written))
                  eq_refl)).
Defined.

(** C2, as worded, fails: with no file at the path the lookup is still
    made, so the calls are three and not two. *)
Lemma new_file_not_two_calls : ~ new_file_two_calls.
Proof.
  intro H.
  pose (u := scripted octocat not_found written).
  assert (Hready : push_ready readme_args) by (repeat split).
  destruct (H strings_only u readme_args (Some (JStr "octocat")) readme_url _
              Hready (octocat_known not_found written) eq_refl eq_refl)
    as (put & Hcalls & _).
  vm_compute in Hcalls. discriminate Hcalls.
Qed.

(** ** Exceptions inside [push_to_repo] *)

Lemma lookup_raises (upstream : Upstream) (made calls : list Request)
    (login : jsval) (args : GithubToolArguments) (target : string) (e : exn) :
  contents_url login args = inr target ->
  run upstream made
    (existing_file_sha login (assoc "repo_name" args) (assoc "file_path" args))
    = (calls, inl e) ->
  sha_found (settle (upstream made (lookup_request target))) = undefined.
Proof.
  unfold existing_file_sha, axios_get, contents_url. intros ->. run_steps.
  unfold lookup_request.
  destruct (settle (upstream made (mkRequest GET target None)))
    as [e' | fileResponse].
  - reflexivity.
  - run_steps. cbn [sha_found].
    destruct (get_prop (data fileResponse) "sha"); [reflexivity | discriminate].
Qed.

(** C1, as the handler has it.  In a [push_to_repo] call whose required
    fields pass the guard, an exception that is not an axios rejection
    and that leaves the outer [try] block ends the invocation as it is:
    it is thrown to the caller after the same calls, not returned as an
    error object.  An exception of any kind raised by the lookup of the
    existing file does not leave that block: a call that gets as far as
    its write makes the PUT with [sha] undefined, and the PUT alone
    decides how the call ends. *)
Theorem push_exceptions (node : ObjectBytes) (upstream : Upstream)
    (args : GithubToolArguments) :
  push_ready args ->
  (forall calls e,
      invoke upstream
        (push_to_repo_try node (Some args) (assoc "repo_name" args)
           (assoc "file_path" args) (assoc "content" args))
        = (calls, inl e) ->
      isAxiosError e = false ->
      invoke upstream (CallTool node "push_to_repo" (Some args)) = (calls, inl e))
  /\ (forall login target bytes calls e,
        push_reaches_write node upstream args login target bytes ->
        run upstream [identity_request]
          (existing_file_sha login (assoc "repo_name" args) (assoc "file_path" args))
          = (calls, inl e) ->
        let lookup := lookup_request target in
        let put := put_request target args bytes undefined in
        invoke upstream (CallTool node "push_to_repo" (Some args))
          = ([identity_request; lookup; put],
             finish (settle (upstream [identity_request; lookup] put)))).
Proof.
  intro Hready. split.
  - intros calls e Htry Hother.
    rewrite CallTool_push_to_repo, (push_to_repo_ready node args Hready).
    unfold invoke in *. rewrite run_try_catch, Htry, run_catch_upstream.
    rewrite (reported_other e Hother). reflexivity.
  - intros login target bytes calls e Hwrite Hraise lookup put. subst lookup put.
    rewrite (push_to_repo_written node upstream args login target bytes Hwrite).
    destruct Hwrite as (_ & _ & Hurl & _).
    rewrite (lookup_raises upstream _ calls login args target e Hurl Hraise).
    reflexivity.
Qed.

Lemma push_exceptions_witness :
  invoke (scripted (HttpReply 200 JNull) not_found written)
    (CallTool strings_only "push_to_repo" (Some readme_args))
  = ([identity_request],
     inl (TypeError "Cannot read properties of null (reading 'login')"))
  /\ invoke (scripted octocat (HttpReply 200 JNull) written)
       (CallTool strings_only "push_to_repo" (Some readme_args))
     = ([ identity_request;
          lookup_request readme_url;
          put_request readme_url readme_args readme_bytes undefined ],
        inr (success (mkResponse 201
                        (JObj [("content", JObj [("sha", JStr "def456")])])))).
Proof.
  assert (Hready : push_ready readme_args) by (repeat split).
  split.
  - exact (proj1 (push_exceptions strings_only
                    (scripted (HttpReply 200 JNull) not_found written)
                    readme_args Hready)
             [identity_request]
             (TypeError "Cannot read properties of null (reading 'login')")
             eq_refl eq_refl).
  - exact (proj2 (push_exceptions strings_only
                    (scripted octocat (HttpReply 200 JNull) written)
                    readme_args Hready)
             (Some (JStr "octocat")) readme_url readme_bytes
             [identity_request; lookup_request readme_url]
             (TypeError "Cannot read properties of null (reading 'sha')")
             (readme_reaches_write _ (octocat_known (HttpReply 200 JNull) written))
             eq_refl).
Defined.

(** C1, as worded, fails: when the lookup is resolved with the body
    [null], reading its [sha] raises a [TypeError], which is not an axios
    rejection, and the call still returns the result of the PUT. *)
Lemma lookup_exception_swallowed : ~ lookup_exception_propagates.
Proof.
  intro H.
  pose (u := scripted octocat (HttpReply 200 JNull) written).
  assert (Hready : push_ready readme_args) by (repeat split).
  specialize (H strings_only u readme_args (Some (JStr "octocat"))
                [identity_request; lookup_request readme_url]
                (TypeError "Cannot read properties of null (reading 'sha')")
                Hready (octocat_known (HttpReply 200 JNull) written)
                eq_refl eq_refl).
  vm_compute in H. discriminate H.
Qed.

(** ** How a tool call ends *)

Lemma last_of_one (a r : Request) (pre : list Request) :
  [a] = (pre ++ [r])%list -> r = a.
Proof.
  intro H. change [a] with ([] ++ [a])%list in H.
  apply app_inj_tail in H. destruct H as [_ H]. congruence.
Qed.

Lemma last_of_two (a b r : Request) (pre : list Request) :
  [a; b] = (pre ++ [r])%list -> r = b.
Proof.
  intro H. change [a; b] with ([a] ++ [b])%list in H.
  apply app_inj_tail in H. destruct H as [_ H]. congruence.
Qed.

(** C4, as the handler has it.  An invocation that made upstream calls,
    all of them resolved, and that, for [push_to_repo], got as far as its
    PUT, returns an object with exactly one content item, of type [text],
    whose text is the pretty-printed JSON of the body of the last
    response; the object has no [isError] property, which reads as
    [false]. *)
Theorem resolved_calls_return_body (node : ObjectBytes) (upstream : Upstream)
    (tool : string) (arguments : option GithubToolArguments) :
  let calls := fst (invoke upstream (CallTool node tool arguments)) in
  calls <> [] ->
  all_resolved upstream [] calls = true ->
  (tool = "push_to_repo" ->
   exists pre r, calls = (pre ++ [r])%list /\ method r = PUT) ->
  exists response result,
    last_response upstream [] calls = Some response
    /\ snd (invoke upstream (CallTool node tool arguments)) = inr result
    /\ result_content result
       = [ {| type := "text"; text := JSON_stringify (data response) |} ]
    /\ isError result = None
    /\ error_flag result = false.
Proof.
  intros calls0 Hcalls Hall Hput. subst calls0.
  pose proof (CallTool_ends node upstream tool arguments) as E.
  destruct (invoke upstream (CallTool node tool arguments)) as [calls outcome].
  cbn [fst snd] in *.
  destruct E as [? | ? ? ? | ? ? ? | ? ? ? ? ? ? | args user Ht ? ? ?
                 | args Ht ? ? | args error Ht ? ? Hid | args ? ? Ht ? ? ? ?
                 | args ? ? Ht ? ? ? ? | args login target ? Ht ? ? ? ? ?
                 | args login target bytes Ht Ha Hwrite];
    try contradiction.
  - cbn [all_resolved last_response] in *.
    destruct (settle (upstream [] (user_request user))) as [e | response];
      [discriminate Hall |].
    exists response, (success response). repeat split.
  - cbn [all_resolved last_response] in *.
    destruct (settle (upstream [] (create_request args))) as [e | response];
      [discriminate Hall |].
    exists response, (success response). repeat split.
  - cbn [all_resolved] in Hall. rewrite Hid in Hall. discriminate Hall.
  - destruct (Hput Ht) as (pre & r & Hlast & Hmethod).
    rewrite (last_of_one _ _ _ Hlast) in Hmethod. discriminate Hmethod.
  - destruct (Hput Ht) as (pre & r & Hlast & Hmethod).
    rewrite (last_of_one _ _ _ Hlast) in Hmethod. discriminate Hmethod.
  - destruct (Hput Ht) as (pre & r & Hlast & Hmethod).
    rewrite (last_of_two _ _ _ _ Hlast) in Hmethod. discriminate Hmethod.
  - subst put sha lookup. cbn [all_resolved last_response app] in *.
    destruct (settle (upstream [] identity_request)); [discriminate Hall |].
    destruct (settle (upstream [identity_request] (lookup_request target)))
      as [e | fileResponse]; [discriminate Hall |].
    cbn [sha_found] in *.
    destruct (settle (upstream [identity_request; lookup_request target] _))
      as [e | response]; [discriminate Hall |].
    exists response, (success response). repeat split.
Qed.

Lemma resolved_calls_return_body_witness :
  exists response result,
    last_response (scripted octocat existing written)
      [] (fst (invoke (scripted octocat existing written)
                 (CallTool strings_only "push_to_repo" (Some readme_args))))
    = Some response
    /\ snd (invoke (scripted octocat existing written)
              (CallTool strings_only "push_to_repo" (Some readme_args)))
       = inr result
    /\ result_content result
       = [ {| type := "text"; text := JSON_stringify (data response) |} ]
    /\ isError result = None
    /\ error_flag result = false.
Proof.
  apply (resolved_calls_return_body strings_only (scripted octocat existing written)
           "push_to_repo" (Some readme_args)).
  - vm_compute. discriminate.
  - vm_compute. reflexivity.
  - intros _.
    exists [identity_request; lookup_request readme_url],
           (put_request readme_url readme_args readme_bytes (Some (JStr "abc123"))).
    split; reflexivity.
Defined.

(** C4, as worded, fails: when the identity call is resolved with the
    body [null], every call made was resolved, yet reading [login] raises
    and nothing is returned. *)
Lemma resolved_calls_may_raise : ~ resolved_calls_succeed.
Proof.
  intro H.
  specialize (H strings_only (scripted (HttpReply 200 JNull) not_found written)
                "push_to_repo" (Some readme_args)).
  destruct H as (response & result & Hresult & _).
  - vm_compute. discriminate.
  - vm_compute. reflexivity.
  - vm_compute in Hresult. discriminate Hresult.
Qed.

(** ** Upstream failures *)

Lemma one_call (r x : Request) (pre post : list Request) :
  [x] = (pre ++ r :: post)%list -> pre = [] /\ r = x /\ post = [].
Proof.
  destruct pre as [| y pre]; simpl; intro H.
  - injection H as -> <-. auto.
  - injection H as _ H. destruct pre; discriminate H.
Qed.

Lemma two_calls (r a b : Request) (pre post : list Request) :
  [a; b] = (pre ++ r :: post)%list ->
  pre = [] /\ r = a \/ pre = [a] /\ r = b /\ post = [].
Proof.
  destruct pre as [| x [| y pre]]; simpl; intro H.
  - injection H as -> _. auto.
  - injection H as -> -> <-. auto.
  - injection H as _ _ H. destruct pre; discriminate H.
Qed.

Lemma three_calls (r a b c : Request) (pre post : list Request) :
  [a; b; c] = (pre ++ r :: post)%list ->
  pre = [] /\ r = a \/ pre = [a] /\ r = b \/ pre = [a; b] /\ r = c /\ post = [].
Proof.
  destruct pre as [| x [| y [| z pre]]]; simpl; intro H.
  - injection H as -> _. auto.
  - injection H as -> -> _. auto.
  - injection H as -> -> -> <-. auto 6.
  - injection H as _ _ _ H. destruct pre; discriminate H.
Qed.

Lemma known_not_rejected (upstream : Upstream) (login : jsval) (error : exn) :
  identity_known upstream login ->
  settle (upstream [] identity_request) = inl error -> False.
Proof.
  intros (response & Hs & _) H. congruence.
Qed.

Lemma rejection_ends_call (node : ObjectBytes) (upstream : Upstream) (tool : string)
    (arguments : option GithubToolArguments)
    (pre post : list Request) (r : Request) (error : exn) :
  fst (invoke upstream (CallTool node tool arguments)) = (pre ++ r :: post)%list ->
  settle (upstream pre r) = inl error ->
  ~ (tool = "push_to_repo" /\ length pre = 1) ->
  snd (invoke upstream (CallTool node tool arguments)) = reported error
  /\ post = [].
Proof.
  intros Hcalls Hreject Hlookup.
  pose proof (CallTool_ends node upstream tool arguments) as E.
  destruct (invoke upstream (CallTool node tool arguments)) as [calls outcome].
  cbn [fst snd] in *. subst calls.
  remember (pre ++ r :: post)%list as calls eqn:Hcalls.
  destruct E as [? | ? ? ? | ? ? ? | ? ? ? ? ? ? | args user Ht ? ? ?
                 | args Ht ? ? | args error' Ht ? ? Hid | args ? ? Ht ? ? Hid ?
                 | args login ? Ht ? ? Hknown ? | args login target ? Ht ? ? Hknown ? ?
                 | args login target bytes Ht Ha (? & Hknown & ? & ?)];
    try (destruct pre; discriminate Hcalls).
  - destruct (one_call _ _ _ _ Hcalls) as (-> & -> & ->).
    rewrite Hreject. auto.
  - destruct (one_call _ _ _ _ Hcalls) as (-> & -> & ->).
    rewrite Hreject. auto.
  - destruct (one_call _ _ _ _ Hcalls) as (-> & -> & ->).
    rewrite Hreject in Hid. injection Hid as ->. auto.
  - destruct (one_call _ _ _ _ Hcalls) as (-> & -> & ->). congruence.
  - destruct (one_call _ _ _ _ Hcalls) as (-> & -> & ->).
    destruct (known_not_rejected _ _ _ Hknown Hreject).
  - destruct (two_calls _ _ _ _ _ Hcalls) as [[-> ->] | (-> & -> & ->)].
    + destruct (known_not_rejected _ _ _ Hknown Hreject).
    + exfalso. apply Hlookup. split; [exact Ht | reflexivity].
  - destruct (three_calls _ _ _ _ _ _ Hcalls)
      as [[-> ->] | [[-> ->] | (-> & -> & ->)]].
    + destruct (known_not_rejected _ _ _ Hknown Hreject).
    + exfalso. apply Hlookup. split; [exact Ht | reflexivity].
    + subst put sha lookup. rewrite Hreject. auto.
Qed.

(** C5, as the handler has it.  Take an upstream call other than the
    lookup of the existing file in [push_to_repo], answered with a status
    outside 2xx.  When the body has [message: "Not Found"], the
    invocation returns an object with [isError: true] whose one text item
    is ["GitHub API error: Not Found"].  When the body is not [null] and
    has no [message], it returns an object with [isError: true] whose one
    text item is ["GitHub API error: "] followed by the error text of
    axios for that status.  Nothing is said of the other bodies: reading
    [message] of [null] raises. *)
Theorem rejection_reported (node : ObjectBytes) (upstream : Upstream)
    (tool : string) (arguments : option GithubToolArguments)
    (pre post : list Request) (r : Request) (status : Z) (body : json) :
  fst (invoke upstream (CallTool node tool arguments)) = (pre ++ r :: post)%list ->
  upstream pre r = HttpReply status body ->
  validateStatus status = false ->
  ~ (tool = "push_to_repo" /\ length pre = 1) ->
  (get_prop body "message" = inr (Some (JStr "Not Found")) ->
   snd (invoke upstream (CallTool node tool arguments))
     = inr {| result_content :=
                [ {| type := "text"; text := "GitHub API error: Not Found" |} ];
              isError := Some true |})
  /\ (get_prop body "message" = inr undefined ->
      snd (invoke upstream (CallTool node tool arguments))
        = inr {| result_content :=
                   [ {| type := "text";
                        text := "GitHub API error: "
                                ++ "Request failed with status code "
                                ++ decimal status |} ];
                 isError := Some true |}).
Proof.
  intros Hcalls Hreply Hstatus Hlookup.
  assert (Hreject :
    settle (upstream pre r)
      = inl (AxiosError (Some (mkResponse status body))
               ("Request failed with status code " ++ decimal status))).
  { rewrite Hreply. unfold settle. rewrite Hstatus. reflexivity. }
  rewrite (proj1 (rejection_ends_call node upstream tool arguments pre post r _
                    Hcalls Hreject Hlookup)).
  unfold reported. cbn [data].
  split; intros ->; reflexivity.
Qed.

Lemma rejection_reported_witness :
  snd (invoke (scripted not_found not_found not_found)
         (CallTool strings_only "get_user" (Some ghost_args)))
  = inr {| result_content :=
             [ {| type := "text"; text := "GitHub API error: Not Found" |} ];
           isError := Some true |}
  /\ snd (invoke (scripted octocat not_found (HttpReply 422 (JStr EmptyString)))
            (CallTool strings_only "push_to_repo" (Some readme_args)))
     = inr {| result_content :=
                [ {| type := "text";
                     text := "GitHub API error: Request failed with status code 422" |} ];
              isError := Some true |}.
Proof.
  split.
  - refine (proj1 (rejection_reported strings_only
                     (scripted not_found not_found not_found)
                     "get_user" (Some ghost_args) [] []
                     (mkRequest GET "/users/ghost" None) 404
                     (JObj [("message", JStr "Not Found")])
                     eq_refl eq_refl eq_refl _) eq_refl).
    intros [Htool _]. discriminate Htool.
  - refine (proj2 (rejection_reported strings_only
                     (scripted octocat not_found (HttpReply 422 (JStr EmptyString)))
                     "push_to_repo" (Some readme_args)
                     [identity_request; lookup_request readme_url]
                     [] (put_request readme_url readme_args readme_bytes undefined) 422
                     (JStr EmptyString) eq_refl eq_refl eq_refl _) eq_refl).
    intros [_ Hpre]. discriminate Hpre.
Defined.

(** C5, as worded, fails: the lookup of the existing file is an upstream
    call, and when it is rejected with [Not Found] the handler goes on
    and returns the result of the PUT. *)
Lemma lookup_rejection_not_reported : ~ every_rejection_reported.
Proof.
  intro H.
  specialize (H strings_only (scripted octocat not_found written) "push_to_repo"
                (Some readme_args)
                [identity_request]
                [put_request readme_url readme_args readme_bytes undefined]
                (lookup_request readme_url)
                404%Z (JObj [("message", JStr "Not Found")])
                eq_refl eq_refl eq_refl eq_refl).
  vm_compute in H. discriminate H.
Qed.

(** ** What a tool call throws *)

(** X1.  A rejection by axios never leaves a tool call as an exception:
    what a call throws is a protocol error of the handler or a
    [TypeError] of the runtime. *)
Theorem axios_rejection_never_thrown (node : ObjectBytes) (upstream : Upstream)
    (tool : string) (arguments : option GithubToolArguments) (e : exn) :
  snd (invoke upstream (CallTool node tool arguments)) = inl e ->
  isAxiosError e = false.
Proof.
  intro H. pose proof (CallTool_ends node upstream tool arguments) as E.
  rewrite H in E.
  destruct (ending_thrown _ _ _ _ _ _ E) as [(c & m & -> & _) | (m & ->)];
    reflexivity.
Qed.

Lemma axios_rejection_never_thrown_witness :
  isAxiosError (TypeError "Cannot read properties of null (reading 'message')")
  = false.
Proof.
  exact (axios_rejection_never_thrown strings_only
           (scripted (HttpReply 500 JNull) not_found written)
           "push_to_repo" (Some readme_args) _ eq_refl).
Defined.

(** X2.  A tool call that throws a protocol error ([McpError]) has made
    no upstream call. *)
Theorem protocol_error_before_upstream (node : ObjectBytes) (upstream : Upstream)
    (tool : string) (arguments : option GithubToolArguments)
    (code : ErrorCode) (text : string) :
  snd (invoke upstream (CallTool node tool arguments)) = inl (McpError code text) ->
  fst (invoke upstream (CallTool node tool arguments)) = [].
Proof.
  intro H. pose proof (CallTool_ends node upstream tool arguments) as E.
  rewrite H in E.
  destruct (ending_thrown _ _ _ _ _ _ E) as [(c & m & _ & Hcalls) | (m & Hm)].
  - exact Hcalls.
  - discriminate Hm.
Qed.

Lemma protocol_error_before_upstream_witness :
  fst (invoke (scripted octocat not_found written)
         (CallTool strings_only "create_repo" (Some ghost_args))) = [].
Proof.
  exact (protocol_error_before_upstream strings_only
           (scripted octocat not_found written)
           "create_repo" (Some ghost_args) InvalidParams
           "Repository name is required" eq_refl).
Defined.

(** X3.  A tool call throws the protocol error [MethodNotFound] exactly
    for the names that the tool listing does not contain. *)
Theorem method_not_found_iff_unlisted (node : ObjectBytes) (upstream : Upstream)
    (tool : string) (arguments : option GithubToolArguments) :
  (exists text,
     snd (invoke upstream (CallTool node tool arguments))
       = inl (McpError MethodNotFound text))
  <-> ~ In tool (map name tools).
Proof.
  split.
  - intros (text & H).
    pose proof (CallTool_ends node upstream tool arguments) as E. rewrite H in E.
    destruct (ending_protocol_error _ _ _ _ _ _ _ E) as [[_ Hout] | [Hcode _]].
    + exact Hout.
    + discriminate Hcode.
  - intro Hout. rewrite (undeclared_tool node tool arguments Hout).
    eexists. reflexivity.
Qed.

Lemma method_not_found_iff_unlisted_witness :
  ~ In "delete_repo" (map name tools).
Proof.
  apply (proj1 (method_not_found_iff_unlisted strings_only offline
                  "delete_repo" None)).
  eexists. reflexivity.
Defined.

(** X7.  For a listed tool called with an argument mapping, the handler
    throws [InvalidParams] exactly when a field that the listing declares
    required is missing or holds a falsy value (the empty string, [null],
    [false], zero): the guards of the handler and the [required] arrays of
    the listing agree. *)
Theorem guard_matches_required (node : ObjectBytes) (upstream : Upstream)
    (tool : Tool) (args : GithubToolArguments) :
  In tool tools ->
  ((exists text,
       snd (invoke upstream (CallTool node (name tool) (Some args)))
         = inl (McpError InvalidParams text))
   <-> first_missing tool args <> None).
Proof.
  intro Hin. split.
  - intros (text & Hthrown) Hnone.
    pose proof (CallTool_ends node upstream (name tool) (Some args)) as E.
    rewrite Hthrown in E.
    assert (Hcalls :
      fst (invoke upstream (CallTool node (name tool) (Some args))) = []).
    { destruct (ending_thrown _ _ _ _ _ _ E) as [(c & m & _ & H) | (m & H)];
        [exact H | discriminate H]. }
    clear E.
    destruct (first_missing_none tool args Hin Hnone)
      as [[Hn H] | [[Hn H] | [Hn H]]]; rewrite Hn in *.
    + rewrite (get_user_run node upstream args H) in *.
      destruct (template (assoc "username" args)) as [e | user] eqn:Ht;
        [| discriminate Hcalls].
      destruct (template_raises _ _ Ht) as (m & ->). discriminate Hthrown.
    + rewrite (create_repo_run node upstream args H) in Hcalls.
      discriminate Hcalls.
    + rewrite (push_to_repo_run node upstream args H) in Hcalls.
      destruct (settle (upstream [] identity_request)); [discriminate Hcalls |].
      destruct (get_prop (data a) "login"); [discriminate Hcalls |].
      destruct (contents_url j args); [discriminate Hcalls |].
      cbv zeta in Hcalls.
      destruct (Buffer_from_value node (assoc "content" args));
        discriminate Hcalls.
  - intro Hsome. destruct (first_missing tool args) as [key |] eqn:Hfirst;
      [| contradiction].
    destruct (first_missing_guard tool args key Hin Hfirst)
      as [[-> H] | [[-> H] | [-> H]]].
    + rewrite (get_user_guard node upstream args H). eexists. reflexivity.
    + rewrite (create_repo_guard node upstream args H). eexists. reflexivity.
    + rewrite (push_to_repo_guard node upstream args H). eexists. reflexivity.
Qed.

Lemma guard_matches_required_witness :
  first_missing push_to_repo_tool [("repo_name", JStr "site"); ("file_path", JNum "0")]
    <> None
  /\ exists text,
       snd (invoke offline
              (CallTool strings_only "push_to_repo"
                 (Some [("repo_name", JStr "site"); ("file_path", JNum "0")])))
       = inl (McpError InvalidParams text).
Proof.
  assert (Hin : In push_to_repo_tool tools) by (simpl; auto).
  assert (Hmissing :
    first_missing push_to_repo_tool
      [("repo_name", JStr "site"); ("file_path", JNum "0")] <> None)
    by discriminate.
  split; [exact Hmissing |].
  exact (proj2 (guard_matches_required strings_only offline push_to_repo_tool
                  [("repo_name", JStr "site"); ("file_path", JNum "0")] Hin)
           Hmissing).
Defined.

(** ** What a tool call returns *)

(** X4.  Whatever a tool call returns has exactly one content item, of
    type [text].  Its [isError] is either missing, and then the text is
    the pretty-printed body of the response to the last call of the run,
    or [true], and then the text starts with ["GitHub API error: "]; it
    is never [false]. *)
Theorem returned_result_shape (node : ObjectBytes) (upstream : Upstream)
    (tool : string) (arguments : option GithubToolArguments)
    (result : CallToolResult) :
  snd (invoke upstream (CallTool node tool arguments)) = inr result ->
  exists shown,
    result_content result = [ {| type := "text"; text := shown |} ]
    /\ (isError result = None
        /\ (exists response,
               last_response upstream []
                 (fst (invoke upstream (CallTool node tool arguments)))
                 = Some response
               /\ shown = JSON_stringify (data response))
        \/ isError result = Some true
           /\ (exists detail, shown = error_prefix ++ detail)).
Proof.
  intro H. pose proof (CallTool_ends node upstream tool arguments) as E.
  rewrite H in E.
  destruct (ending_returned _ _ _ _ _ _ E)
    as [(response & Hlast & ->) | (detail & ->)].
  - eexists. split; [reflexivity |]. left. split; [reflexivity |]. eauto.
  - eexists. split; [reflexivity |]. right. split; [reflexivity |]. eauto.
Qed.

Lemma returned_result_shape_witness :
  exists shown,
    result_content (success (mkResponse 200 (JObj [("login", JStr "octocat")])))
      = [ {| type := "text"; text := shown |} ]
    /\ (isError (success (mkResponse 200 (JObj [("login", JStr "octocat")]))) = None
        /\ (exists response,
               last_response (scripted octocat octocat written) []
                 (fst (invoke (scripted octocat octocat written)
                         (CallTool strings_only "get_user" (Some ghost_args))))
                 = Some response
               /\ shown = JSON_stringify (data response))
        \/ isError (success (mkResponse 200 (JObj [("login", JStr "octocat")])))
             = Some true
           /\ (exists detail, shown = error_prefix ++ detail)).
Proof.
  exact (returned_result_shape strings_only (scripted octocat octocat written)
           "get_user" (Some ghost_args) _ eq_refl).
Defined.

(** ** The upstream calls of a tool call *)

(** X5.  A tool call makes at most three upstream calls, and at most one
    unless the tool is [push_to_repo]. *)
Theorem upstream_calls_bounded (node : ObjectBytes) (upstream : Upstream)
    (tool : string) (arguments : option GithubToolArguments) :
  let calls := fst (invoke upstream (CallTool node tool arguments)) in
  length calls <= 3
  /\ (tool <> "push_to_repo" -> length calls <= 1).
Proof.
  intro calls. subst calls.
  destruct (ending_calls _ _ _ _ _ _ (CallTool_ends node upstream tool arguments))
    as [-> | [(a & _ & ->) | [(a & _ & ->) | [(Ht & ->) | [(t & Ht & ->)
        | (a & t & b & s & Ht & _ & _ & _ & ->)]]]]];
    cbn [length]; split; try lia; intro; try lia; contradiction.
Qed.

Lemma upstream_calls_bounded_witness :
  length (fst (invoke (scripted octocat not_found written)
                 (CallTool strings_only "push_to_repo" (Some readme_args)))) <= 3
  /\ length (fst (invoke (scripted octocat not_found written)
                    (CallTool strings_only "create_repo" (Some readme_args)))) <= 1.
Proof.
  split.
  - exact (proj1 (upstream_calls_bounded strings_only
                    (scripted octocat not_found written)
                    "push_to_repo" (Some readme_args))).
  - refine (proj2 (upstream_calls_bounded strings_only
                     (scripted octocat not_found written)
                     "create_repo" (Some readme_args)) _).
    discriminate.
Defined.

(** X6.  A request that is not a GET is the last call of its invocation,
    so a tool call writes at most once; [get_user] never writes, and
    [push_to_repo] writes only after the identity read and the lookup. *)
Theorem write_is_last_call (node : ObjectBytes) (upstream : Upstream)
    (tool : string) (arguments : option GithubToolArguments)
    (pre post : list Request) (r : Request) :
  fst (invoke upstream (CallTool node tool arguments)) = (pre ++ r :: post)%list ->
  method r <> GET ->
  post = []
  /\ tool <> "get_user"
  /\ (tool = "push_to_repo" -> method r = PUT /\ length pre = 2).
Proof.
  intros Hcalls Hwrite.
  destruct (ending_calls _ _ _ _ _ _ (CallTool_ends node upstream tool arguments))
    as [H | [(a & Ht & H) | [(a & Ht & H) | [(Ht & H) | [(t & Ht & H)
        | (a & t & b & s & Ht & _ & _ & _ & H)]]]]];
    rewrite H in Hcalls.
  - destruct pre; discriminate Hcalls.
  - destruct (one_call _ _ _ _ Hcalls) as (-> & -> & _). exfalso. now apply Hwrite.
  - destruct (one_call _ _ _ _ Hcalls) as (-> & -> & ->).
    subst tool. repeat split; discriminate.
  - destruct (one_call _ _ _ _ Hcalls) as (-> & -> & _). exfalso. now apply Hwrite.
  - destruct (two_calls _ _ _ _ _ Hcalls) as [[-> ->] | (-> & -> & _)];
      exfalso; now apply Hwrite.
  - destruct (three_calls _ _ _ _ _ _ Hcalls)
      as [[-> ->] | [[-> ->] | (-> & -> & ->)]].
    + exfalso. now apply Hwrite.
    + exfalso. now apply Hwrite.
    + subst tool. repeat split; discriminate.
Qed.

Lemma write_is_last_call_witness :
  @nil Request = []
  /\ "push_to_repo" <> "get_user"
  /\ ("push_to_repo" = "push_to_repo" ->
      method (put_request readme_url readme_args readme_bytes undefined) = PUT
      /\ length [identity_request; lookup_request readme_url] = 2).
Proof.
  refine (write_is_last_call strings_only (scripted octocat not_found written)
            "push_to_repo" (Some readme_args)
            [identity_request; lookup_request readme_url]
            [] (put_request readme_url readme_args readme_bytes undefined)
            eq_refl _).
  discriminate.
Defined.

(** ** More on upstream failures *)

(** X8.  When an upstream call other than the lookup of the existing
    file gets no response at all, it is the last call and the invocation
    returns the error object with the transport's message. *)
Theorem transport_failure_reported (node : ObjectBytes) (upstream : Upstream)
    (tool : string) (arguments : option GithubToolArguments)
    (pre post : list Request) (r : Request) (text : string) :
  fst (invoke upstream (CallTool node tool arguments)) = (pre ++ r :: post)%list ->
  upstream pre r = TransportFailure text ->
  ~ (tool = "push_to_repo" /\ length pre = 1) ->
  snd (invoke upstream (CallTool node tool arguments))
    = inr {| result_content :=
               [ {| type := "text"; text := "GitHub API error: " ++ text |} ];
             isError := Some true |}.
Proof.
  intros Hcalls Hreply Hlookup.
  assert (Hreject : settle (upstream pre r) = inl (AxiosError None text))
    by (rewrite Hreply; reflexivity).
  rewrite (proj1 (rejection_ends_call node upstream tool arguments pre post r _
                    Hcalls Hreject Hlookup)).
  reflexivity.
Qed.

Lemma transport_failure_reported_witness :
  snd (invoke offline (CallTool strings_only "create_repo" (Some readme_args)))
  = inr {| result_content :=
             [ {| type := "text";
                  text := "GitHub API error: getaddrinfo ENOTFOUND api.github.com" |} ];
           isError := Some true |}.
Proof.
  refine (transport_failure_reported strings_only offline "create_repo"
            (Some readme_args) [] [] (create_request readme_args) _
            eq_refl eq_refl _).
  intros [Htool _]. discriminate Htool.
Defined.

(** X9.  When an upstream call other than the lookup of the existing
    file is answered with a status outside 2xx and the body [null],
    building the error text raises: the invocation throws a [TypeError]
    and returns no error object. *)
Theorem null_error_body_raises (node : ObjectBytes) (upstream : Upstream)
    (tool : string) (arguments : option GithubToolArguments)
    (pre post : list Request) (r : Request) (status : Z) :
  fst (invoke upstream (CallTool node tool arguments)) = (pre ++ r :: post)%list ->
  upstream pre r = HttpReply status JNull ->
  validateStatus status = false ->
  ~ (tool = "push_to_repo" /\ length pre = 1) ->
  snd (invoke upstream (CallTool node tool arguments))
    = inl (TypeError "Cannot read properties of null (reading 'message')").
Proof.
  intros Hcalls Hreply Hstatus Hlookup.
  assert (Hreject :
    settle (upstream pre r)
      = inl (AxiosError (Some (mkResponse status JNull))
               ("Request failed with status code " ++ decimal status))).
  { rewrite Hreply. unfold settle. rewrite Hstatus. reflexivity. }
  rewrite (proj1 (rejection_ends_call node upstream tool arguments pre post r _
                    Hcalls Hreject Hlookup)).
  reflexivity.
Qed.

Lemma null_error_body_raises_witness :
  snd (invoke (scripted octocat (HttpReply 502 JNull) written)
         (CallTool strings_only "get_user" (Some ghost_args)))
  = inl (TypeError "Cannot read properties of null (reading 'message')").
Proof.
  refine (null_error_body_raises strings_only
            (scripted octocat (HttpReply 502 JNull) written)
            "get_user" (Some ghost_args) [] [] (user_request "ghost") 502
            eq_refl eq_refl eq_refl _).
  intros [Htool _]. discriminate Htool.
Defined.



(** ** More on [get_user] and [create_repo] *)

Lemma falsy_string (s : string) : s <> EmptyString -> falsy (Some (JStr s)) = false.
Proof. destruct s; [contradiction | reflexivity]. Qed.

(** X11.  [get_user] with a non-empty string for [username] makes one
    call, a GET without a body at [/users/] followed by the username as
    it was given; a resolved response is returned pretty-printed, without
    [isError]. *)
Theorem get_user_reads_profile (node : ObjectBytes) (upstream : Upstream)
    (args : GithubToolArguments) (login : string) :
  assoc "username" args = Some (JStr login) ->
  login <> EmptyString ->
  fst (invoke upstream (CallTool node "get_user" (Some args)))
    = [mkRequest GET ("/users/" ++ login) None]
  /\ (forall response,
        settle (upstream [] (mkRequest GET ("/users/" ++ login) None)) = inr response ->
        snd (invoke upstream (CallTool node "get_user" (Some args)))
          = inr {| result_content :=
                     [ {| type := "text"; text := JSON_stringify (data response) |} ];
                   isError := None |}).
Proof.
  intros Hname Hlogin.
  assert (H : falsy (assoc "username" args) = false)
    by (rewrite Hname; apply falsy_string, Hlogin).
  rewrite (get_user_run node upstream args H). rewrite Hname.
  cbn [template json_to_string]. unfold user_request.
  split; [reflexivity |]. intros response ->. reflexivity.
Qed.

Lemma get_user_reads_profile_witness :
  invoke (scripted octocat octocat written)
    (CallTool strings_only "get_user" (Some release_args))
  = ([mkRequest GET "/users/octocat" None],
     inr {| result_content :=
              [ {| type := "text";
                   text := JSON_stringify (JObj [("login", JStr "octocat")]) |} ];
            isError := None |}).
Proof.
  assert (Hne : "octocat" <> EmptyString) by discriminate.
  destruct (get_user_reads_profile strings_only (scripted octocat octocat written)
              release_args "octocat" eq_refl Hne) as [Hcalls Hresult].
  specialize (Hresult _ eq_refl).
  destruct (invoke (scripted octocat octocat written)
              (CallTool strings_only "get_user" (Some release_args)))
    as [calls outcome].
  cbn [fst snd] in *. rewrite Hcalls, Hresult. reflexivity.
Defined.

(** X12.  [create_repo] with a truthy [repo_name] makes one call, the
    POST to [/user/repos], and hands the arguments over as they are: the
    name, the description or [undefined], and [private] as given, or else
    the default that the tool listing declares for it. *)
Theorem create_repo_body (node : ObjectBytes) (upstream : Upstream)
    (args : GithubToolArguments) :
  falsy (assoc "repo_name" args) = false ->
  fst (invoke upstream (CallTool node "create_repo" (Some args)))
    = [ mkRequest POST "/user/repos"
          (Some [ ("name", assoc "repo_name" args);
                  ("description", assoc "description" args);
                  ("private",
                   if nullish (assoc "private" args)
                   then declared_default create_repo_tool "private"
                   else assoc "private" args) ]) ].
Proof.
  intro H. rewrite (create_repo_run node upstream args H). reflexivity.
Qed.

Lemma create_repo_body_witness :
  fst (invoke offline (CallTool strings_only "create_repo" (Some release_args)))
  = [ mkRequest POST "/user/repos"
        (Some [ ("name", Some (JStr "site"));
                ("description", Some (JStr "Project site"));
                ("private", Some (JBool true)) ]) ].
Proof.
  exact (create_repo_body strings_only offline release_args eq_refl).
Defined.

(** X13.  Arguments that a tool does not use do not change its call:
    the whole run depends on [username] for [get_user], on [repo_name],
    [description] and [private] for [create_repo], and on [repo_name],
    [file_path], [content] and [message] for [push_to_repo]. *)
Theorem unused_arguments_ignored (node : ObjectBytes) (upstream : Upstream)
    (args args' : GithubToolArguments) :
  (assoc "username" args = assoc "username" args' ->
   invoke upstream (CallTool node "get_user" (Some args))
     = invoke upstream (CallTool node "get_user" (Some args')))
  /\ (assoc "repo_name" args = assoc "repo_name" args' ->
      assoc "description" args = assoc "description" args' ->
      assoc "private" args = assoc "private" args' ->
      invoke upstream (CallTool node "create_repo" (Some args))
        = invoke upstream (CallTool node "create_repo" (Some args')))
  /\ (assoc "repo_name" args = assoc "repo_name" args' ->
      assoc "file_path" args = assoc "file_path" args' ->
      assoc "content" args = assoc "content" args' ->
      assoc "message" args = assoc "message" args' ->
      invoke upstream (CallTool node "push_to_repo" (Some args))
        = invoke upstream (CallTool node "push_to_repo" (Some args'))).
Proof.
  split; [| split].
  - intro Hu. destruct (falsy (assoc "username" args)) eqn:H.
    + rewrite (get_user_guard node upstream args H).
      rewrite Hu in H. rewrite (get_user_guard node upstream args' H). reflexivity.
    + rewrite (get_user_run node upstream args H).
      rewrite Hu in H. rewrite (get_user_run node upstream args' H).
      rewrite Hu. reflexivity.
  - intros Hr Hd Hp. destruct (falsy (assoc "repo_name" args)) eqn:H.
    + rewrite (create_repo_guard node upstream args H).
      rewrite Hr in H. rewrite (create_repo_guard node upstream args' H).
      reflexivity.
    + rewrite (create_repo_run node upstream args H).
      rewrite Hr in H. rewrite (create_repo_run node upstream args' H).
      unfold create_request. rewrite Hr, Hd, Hp. reflexivity.
  - intros Hr Hf Hc Hm. destruct (push_ready_or_not args) as [H | H].
    + rewrite (push_to_repo_run node upstream args H).
      unfold push_ready in H. rewrite Hr, Hf, Hc in H.
      rewrite (push_to_repo_run node upstream args' H).
      unfold put_request, put_body, contents_url.
      rewrite Hr, Hf, Hc, Hm. reflexivity.
    + rewrite (push_to_repo_guard node upstream args H).
      rewrite Hr, Hf, Hc in H.
      rewrite (push_to_repo_guard node upstream args' H). reflexivity.
Qed.

Lemma unused_arguments_ignored_witness :
  invoke (scripted octocat not_found written)
    (CallTool strings_only "get_user" (Some release_args))
  = invoke (scripted octocat not_found written)
      (CallTool strings_only "get_user" (Some [("username", JStr "octocat")])).
Proof.
  exact (proj1 (unused_arguments_ignored strings_only
                  (scripted octocat not_found written)
                  release_args [("username", JStr "octocat")]) eq_refl).
Defined.

(** ** More on [push_to_repo] *)

(** X14.  When the identity call is rejected, [push_to_repo] stops
    there: it has made that one call, neither looks the file up nor
    writes, and reports the rejection. *)
Theorem identity_rejection_stops_push (node : ObjectBytes) (upstream : Upstream)
    (args : GithubToolArguments) (error : exn) :
  push_ready args ->
  settle (upstream [] identity_request) = inl error ->
  invoke upstream (CallTool node "push_to_repo" (Some args))
    = ([mkRequest GET "/user" None], reported error).
Proof.
  intros Hready Hid.
  rewrite (push_to_repo_run node upstream args Hready), Hid. reflexivity.
Qed.

Lemma identity_rejection_stops_push_witness :
  invoke (scripted (HttpReply 401 (JObj [("message", JStr "Bad credentials")]))
            not_found written)
    (CallTool strings_only "push_to_repo" (Some readme_args))
  = ([mkRequest GET "/user" None],
     inr {| result_content :=
              [ {| type := "text"; text := "GitHub API error: Bad credentials" |} ];
            isError := Some true |}).
Proof.
  assert (Hready : push_ready readme_args) by (repeat split).
  exact (identity_rejection_stops_push strings_only
           (scripted (HttpReply 401 (JObj [("message", JStr "Bad credentials")]))
              not_found written)
           readme_args _ Hready eq_refl).
Defined.

(** X15.  When the identity body has no [login], a push whose
    [repo_name] and [file_path] are strings and whose content
    [Buffer.from] takes goes on all the same and addresses the repository
    of the owner [undefined]: both the lookup and the write go to
    [/repos/undefined/...]. *)
Theorem missing_login_addresses_undefined (node : ObjectBytes) (upstream : Upstream)
    (args : GithubToolArguments) (repo path : string) (bytes : Buffer) :
  push_ready args ->
  assoc "repo_name" args = Some (JStr repo) ->
  assoc "file_path" args = Some (JStr path) ->
  Buffer_from_value node (assoc "content" args) = inr bytes ->
  identity_known upstream undefined ->
  map (fun r => (method r, url r))
    (fst (invoke upstream (CallTool node "push_to_repo" (Some args))))
  = [ (GET, "/user");
      (GET, "/repos/undefined/" ++ repo ++ "/contents/" ++ path);
      (PUT, "/repos/undefined/" ++ repo ++ "/contents/" ++ path) ].
Proof.
  intros Hready Hrepo Hpath Hbytes Hid.
  assert (Hurl : contents_url undefined args
                 = inr ("/repos/undefined/" ++ repo ++ "/contents/" ++ path)).
  { unfold contents_url. rewrite Hrepo, Hpath. reflexivity. }
  rewrite (push_to_repo_written node upstream args undefined _ bytes
             (conj Hready (conj Hid (conj Hurl Hbytes)))).
  reflexivity.
Qed.

Lemma missing_login_addresses_undefined_witness :
  map (fun r => (method r, url r))
    (fst (invoke (scripted (HttpReply 200 (JObj [])) not_found written)
            (CallTool strings_only "push_to_repo" (Some readme_args))))
  = [ (GET, "/user");
      (GET, "/repos/undefined/site/contents/docs/README.md");
      (PUT, "/repos/undefined/site/contents/docs/README.md") ].
Proof.
  assert (Hready : push_ready readme_args) by (repeat split).
  assert (Hid : identity_known (scripted (HttpReply 200 (JObj [])) not_found written)
                  undefined).
  { eexists. split; reflexivity. }
  exact (missing_login_addresses_undefined strings_only
           (scripted (HttpReply 200 (JObj [])) not_found written)
           readme_args "site" "docs/README.md" readme_bytes
           Hready eq_refl eq_refl eq_refl Hid).
Defined.

(** X16.  When a push gets as far as its write and the lookup was
    resolved with a body that is not an object (the array that lists a
    directory, a string, [null]), no [sha] is found and the write goes
    out without one. *)
Theorem lookup_without_object_writes_blind (node : ObjectBytes)
    (upstream : Upstream) (args : GithubToolArguments) (login : jsval)
    (target : string) (bytes : Buffer) (fileResponse : AxiosResponse) :
  push_reaches_write node upstream args login target bytes ->
  settle (upstream [identity_request] (lookup_request target)) = inr fileResponse ->
  (forall fields, data fileResponse <> JObj fields) ->
  fst (invoke upstream (CallTool node "push_to_repo" (Some args)))
    = [identity_request; lookup_request target;
       put_request target args bytes undefined]
  /\ assoc "sha" (put_body args bytes undefined) = Some undefined
  /\ assoc "sha" (transmitted (put_body args bytes undefined)) = None.
Proof.
  intros Hwrite Hlookup Hshape.
  rewrite (push_to_repo_written node upstream args login target bytes Hwrite),
    Hlookup.
  split.
  - cbn [fst sha_found].
    destruct (data fileResponse) as [| b | n | s | items | fields]; try reflexivity.
    exfalso. apply (Hshape fields). reflexivity.
  - unfold put_body.
    destruct (coalesce (assoc "message" args) (Some (JStr "Update via GitHub MCP")));
      split; reflexivity.
Qed.

Lemma lookup_without_object_writes_blind_witness :
  fst (invoke (scripted octocat (HttpReply 200 (JArr [JObj [("sha", JStr "abc123")]]))
                 written)
         (CallTool strings_only "push_to_repo" (Some readme_args)))
  = [identity_request; lookup_request readme_url;
     put_request readme_url readme_args readme_bytes undefined].
Proof.
  refine (proj1 (lookup_without_object_writes_blind strings_only
                   (scripted octocat
                      (HttpReply 200 (JArr [JObj [("sha", JStr "abc123")]])) written)
                   readme_args
                   (Some (JStr "octocat")) readme_url readme_bytes
                   (mkResponse 200 (JArr [JObj [("sha", JStr "abc123")]]))
                   (readme_reaches_write _ (octocat_known _ written)) eq_refl _)).
  intros fields H. discriminate H.
Defined.

(** X17.  Every PUT of [push_to_repo] carries the commit message that
    was given, an empty one included; without one it carries the default
    that the tool listing declares for [message]. *)
Theorem commit_message_or_declared_default (node : ObjectBytes)
    (upstream : Upstream) (arguments : option GithubToolArguments) (r : Request) :
  In r (fst (invoke upstream (CallTool node "push_to_repo" arguments))) ->
  method r = PUT ->
  exists args fields,
    arguments = Some args
    /\ body r = Some fields
    /\ assoc "message" fields
       = Some (if nullish (assoc "message" args)
               then declared_default push_to_repo_tool "message"
               else assoc "message" args).
Proof.
  intros Hin Hput.
  destruct (push_to_repo_calls node upstream arguments r Hin Hput)
    as (args & target & bytes & sha & -> & _ & _ & _ & ->).
  exists args, (put_body args bytes sha). split; [reflexivity |].
  split; reflexivity.
Qed.

Lemma commit_message_or_declared_default_witness :
  exists fields,
    body (put_request readme_url readme_args readme_bytes undefined) = Some fields
    /\ assoc "message" fields = Some (Some (JStr "Update via GitHub MCP")).
Proof.
  pose (u := scripted octocat not_found written).
  pose (r := put_request readme_url readme_args readme_bytes undefined).
  assert (Hin : In r (fst (invoke u (CallTool strings_only "push_to_repo"
                                        (Some readme_args))))).
  { vm_compute. auto. }
  destruct (commit_message_or_declared_default strings_only u (Some readme_args) r
              Hin eq_refl)
    as (args & fields & Ha & Hb & Hm).
  injection Ha as <-. exists fields. split; [exact Hb | exact Hm].
Defined.

(** X20.  When a push gets as far as its write, whatever the lookup body
    holds under [sha], a string or not, is handed to the write
    unchanged. *)
Theorem lookup_sha_forwarded (node : ObjectBytes) (upstream : Upstream)
    (args : GithubToolArguments) (login sha : jsval) (target : string)
    (bytes : Buffer) (fileResponse : AxiosResponse) :
  push_reaches_write node upstream args login target bytes ->
  settle (upstream [identity_request] (lookup_request target)) = inr fileResponse ->
  get_prop (data fileResponse) "sha" = inr sha ->
  exists fields,
    fst (invoke upstream (CallTool node "push_to_repo" (Some args)))
      = [identity_request; lookup_request target;
         mkRequest PUT target (Some fields)]
    /\ assoc "sha" fields = Some sha.
Proof.
  intros Hwrite Hlookup Hsha.
  rewrite (push_to_repo_written node upstream args login target bytes Hwrite),
    Hlookup.
  cbn [sha_found]. rewrite Hsha.
  exists (put_body args bytes sha). split; reflexivity.
Qed.

Lemma lookup_sha_forwarded_witness :
  exists fields,
    fst (invoke (scripted octocat (HttpReply 200 (JObj [("sha", JNum "7")])) written)
           (CallTool strings_only "push_to_repo" (Some readme_args)))
      = [identity_request; lookup_request readme_url;
         mkRequest PUT readme_url (Some fields)]
    /\ assoc "sha" fields = Some (Some (JNum "7")).
Proof.
  exact (lookup_sha_forwarded strings_only
           (scripted octocat (HttpReply 200 (JObj [("sha", JNum "7")])) written)
           readme_args (Some (JStr "octocat"))
           (Some (JNum "7")) readme_url readme_bytes
           (mkResponse 200 (JObj [("sha", JNum "7")]))
           (readme_reaches_write _ (octocat_known _ written)) eq_refl eq_refl).
Defined.

(** X21.  A [push_to_repo] call that reaches the write has first read
    the identity and then looked up, with a GET without a body, the very
    path that it writes to. *)
Theorem write_follows_lookup_of_same_path (node : ObjectBytes)
    (upstream : Upstream) (arguments : option GithubToolArguments) (r : Request) :
  In r (fst (invoke upstream (CallTool node "push_to_repo" arguments))) ->
  method r = PUT ->
  exists lookup,
    fst (invoke upstream (CallTool node "push_to_repo" arguments))
      = [mkRequest GET "/user" None; lookup; r]
    /\ method lookup = GET
    /\ body lookup = None
    /\ url lookup = url r.
Proof.
  intros Hin Hput.
  destruct (push_to_repo_calls node upstream arguments r Hin Hput)
    as (args & target & bytes & sha & _ & _ & _ & Hcalls & ->).
  exists (lookup_request target). rewrite Hcalls. repeat split.
Qed.

Lemma write_follows_lookup_of_same_path_witness :
  exists lookup,
    fst (invoke (scripted octocat not_found written)
           (CallTool strings_only "push_to_repo" (Some readme_args)))
      = [mkRequest GET "/user" None; lookup;
         put_request readme_url readme_args readme_bytes undefined]
    /\ method lookup = GET
    /\ body lookup = None
    /\ url lookup = url (put_request readme_url readme_args readme_bytes undefined).
Proof.
  refine (write_follows_lookup_of_same_path strings_only
            (scripted octocat not_found written) (Some readme_args)
            (put_request readme_url readme_args readme_bytes undefined) _ eq_refl).
  vm_compute. auto.
Defined.

(** X22.  A push whose content is a number or a boolean passes the
    guard when the value is truthy, reads the identity and looks the file
    up, and then stops: [Buffer.from] raises a [TypeError] before the
    write, so the call makes two GETs and no PUT. *)
Theorem unencodable_content_stops_before_write (node : ObjectBytes)
    (upstream : Upstream) (args : GithubToolArguments) (login : jsval)
    (target : string) (content : json) :
  push_ready args ->
  identity_known upstream login ->
  contents_url login args = inr target ->
  assoc "content" args = Some content ->
  (exists rendering, content = JNum rendering) \/ (exists b, content = JBool b) ->
  exists text,
    invoke upstream (CallTool node "push_to_repo" (Some args))
      = ([mkRequest GET "/user" None; mkRequest GET target None],
         inl (TypeError text)).
Proof.
  intros Hready (userResponse & Hsettle & Hlogin) Hurl Hcontent Hkind.
  rewrite (push_to_repo_run node upstream args Hready).
  rewrite Hsettle, Hlogin, Hurl, Hcontent. cbv zeta.
  destruct Hkind as [(n & ->) | (b & ->)]; eexists; reflexivity.
Qed.

Lemma unencodable_content_stops_before_write_witness :
  exists text,
    invoke (scripted octocat existing written)
      (CallTool strings_only "push_to_repo" (Some numeric_content_args))
    = ([mkRequest GET "/user" None; mkRequest GET readme_url None],
       inl (TypeError text)).
Proof.
  assert (Hready : push_ready numeric_content_args) by (repeat split).
  refine (unencodable_content_stops_before_write strings_only
            (scripted octocat existing written) numeric_content_args
            (Some (JStr "octocat")) readme_url (JNum "123")
            Hready (octocat_known existing written) eq_refl eq_refl _).
  left. eexists. reflexivity.
Defined.

(** X23.  A value that cannot be made a string stops the handler before
    the call that needs it: a [username] object with an own [toString]
    key makes [get_user] throw a [TypeError] with no call made, and such
    a [login], [repo_name] or [file_path] makes [push_to_repo] throw
    after the identity read alone, the same error having been swallowed
    once by the lookup. *)
Theorem unprintable_value_stops_call (node : ObjectBytes) (upstream : Upstream)
    (args : GithubToolArguments) :
  (forall e,
      falsy (assoc "username" args) = false ->
      template (assoc "username" args) = inl e ->
      invoke upstream (CallTool node "get_user" (Some args)) = ([], inl e))
  /\ (forall login e,
        push_ready args ->
        identity_known upstream login ->
        contents_url login args = inl e ->
        invoke upstream (CallTool node "push_to_repo" (Some args))
          = ([mkRequest GET "/user" None], inl e)).
Proof.
  split.
  - intros e Hguard Ht. rewrite (get_user_run node upstream args Hguard), Ht.
    reflexivity.
  - intros login e Hready (userResponse & Hsettle & Hlogin) Hurl.
    rewrite (push_to_repo_run node upstream args Hready).
    rewrite Hsettle, Hlogin, Hurl. reflexivity.
Qed.

Lemma unprintable_value_stops_call_witness :
  invoke (scripted octocat not_found written)
    (CallTool strings_only "get_user"
       (Some [("username", JObj [("toString", JNum "1")])]))
  = ([], inl (TypeError "Cannot convert object to primitive value"))
  /\ invoke (scripted (HttpReply 200 (JObj [("login", JObj [("toString", JNum "1")])]))
               not_found written)
       (CallTool strings_only "push_to_repo" (Some readme_args))
     = ([mkRequest GET "/user" None],
        inl (TypeError "Cannot convert object to primitive value")).
Proof.
  split.
  - exact (proj1 (unprintable_value_stops_call strings_only
                    (scripted octocat not_found written)
                    [("username", JObj [("toString", JNum "1")])])
             _ eq_refl eq_refl).
  - assert (Hready : push_ready readme_args) by (repeat split).
    refine (proj2 (unprintable_value_stops_call strings_only
                     (scripted (HttpReply 200
                                  (JObj [("login", JObj [("toString", JNum "1")])]))
                        not_found written)
                     readme_args)
              (Some (JObj [("toString", JNum "1")])) _ Hready _ eq_refl).
    eexists. split; reflexivity.
Defined.

(** ** The transmitted content *)

Lemma base64_of_bytes_length (bytes : list Byte.byte) :
  String.length (base64_of_bytes bytes) = 4 * ((length bytes + 2) / 3).
Proof.
  induction bytes as [| b0 | b0 b1 | b0 b1 b2 rest IH] using list_ind3.
  - reflexivity.
  - reflexivity.
  - reflexivity.
  - cbn [base64_of_bytes sextets String.length length]. rewrite IH.
    replace (S (S (S (length rest))) + 2) with (length rest + 2 + 1 * 3) by lia.
    rewrite Nat.div_add by lia. lia.
Qed.

Lemma base64_char_letter (n : N) : (n < 64)%N -> base64_letter (base64_char n).
Proof.
  intro H. right. rewrite (base64_index_char n H). discriminate.
Qed.

Ltac letters :=
  repeat (apply Forall_cons;
          [ first [ now left | apply base64_char_letter; euclid ] | ]).

Lemma base64_of_bytes_letters (bytes : list Byte.byte) :
  Forall base64_letter (list_ascii_of_string (base64_of_bytes bytes)).
Proof.
  induction bytes as [| b0 | b0 b1 | b0 b1 b2 rest IH] using list_ind3.
  - constructor.
  - pose proof (byte_below_256 b0).
    cbn [base64_of_bytes sextets list_ascii_of_string].
    letters. apply Forall_nil.
  - pose proof (byte_below_256 b0). pose proof (byte_below_256 b1).
    cbn [base64_of_bytes sextets list_ascii_of_string].
    letters. apply Forall_nil.
  - pose proof (byte_below_256 b0). pose proof (byte_below_256 b1).
    pose proof (byte_below_256 b2).
    cbn [base64_of_bytes sextets list_ascii_of_string]. fold base64_of_bytes.
    letters. exact IH.
Qed.

Lemma base64_of_bytes_injective (bytes bytes' : list Byte.byte) :
  base64_of_bytes bytes = base64_of_bytes bytes' -> bytes = bytes'.
Proof.
  intro H. pose proof (base64_decode_of_bytes bytes) as Hb.
  pose proof (base64_decode_of_bytes bytes') as Hb'.
  rewrite H in Hb. congruence.
Qed.

Lemma list_byte_of_string_injective (s s' : string) :
  list_byte_of_string s = list_byte_of_string s' -> s = s'.
Proof.
  intro H. rewrite <- (string_of_list_byte_of_string s).
  rewrite <- (string_of_list_byte_of_string s'). rewrite H. reflexivity.
Qed.

(** X18.  The [content] that a PUT of [push_to_repo] carries is
    well-formed base64 text: four characters for every three bytes that
    [Buffer.from] gives for the argument, rounded up, each a letter of the
    alphabet or the padding; a string argument has as many bytes as the
    string holds. *)
Theorem transmitted_content_well_formed (node : ObjectBytes) (upstream : Upstream)
    (arguments : option GithubToolArguments) (r : Request) :
  In r (fst (invoke upstream (CallTool node "push_to_repo" arguments))) ->
  method r = PUT ->
  exists args bytes fields sent,
    arguments = Some args
    /\ Buffer_from_value node (assoc "content" args) = inr bytes
    /\ body r = Some fields
    /\ assoc "content" fields = Some (Some (JStr sent))
    /\ String.length sent = 4 * ((length bytes + 2) / 3)
    /\ Forall base64_letter (list_ascii_of_string sent)
    /\ (forall input,
          assoc "content" args = Some (JStr input) ->
          String.length sent = 4 * ((String.length input + 2) / 3)).
Proof.
  intros Hin Hput.
  destruct (push_to_repo_calls node upstream arguments r Hin Hput)
    as (args & target & bytes & sha & -> & _ & Hbytes & _ & ->).
  exists args, bytes, (put_body args bytes sha), (Buffer_toString_base64 bytes).
  split; [reflexivity |]. split; [exact Hbytes |]. split; [reflexivity |].
  split; [reflexivity |]. unfold Buffer_toString_base64.
  split; [apply base64_of_bytes_length |].
  split; [apply base64_of_bytes_letters |].
  intros input Hinput. rewrite Hinput in Hbytes. cbn [Buffer_from_value] in Hbytes.
  injection Hbytes as <-.
  rewrite base64_of_bytes_length, Buffer_from_length. reflexivity.
Qed.

Lemma transmitted_content_well_formed_witness :
  String.length "IyBIZWxsbw==" = 4 * ((String.length "# Hello" + 2) / 3)
  /\ Forall base64_letter (list_ascii_of_string "IyBIZWxsbw==").
Proof.
  pose (u := scripted octocat not_found written).
  pose (r := put_request readme_url readme_args readme_bytes undefined).
  assert (Hin : In r (fst (invoke u (CallTool strings_only "push_to_repo"
                                        (Some readme_args))))).
  { vm_compute. auto. }
  destruct (transmitted_content_well_formed strings_only u (Some readme_args) r
              Hin eq_refl)
    as (args & bytes & fields & sent & Ha & Hc & Hb & Hf & _ & Hletters & Hlen).
  injection Ha as <-. injection Hb as <-. injection Hf as <-.
  split; [exact (Hlen "# Hello" eq_refl) | exact Hletters].
Defined.

(** X19.  Two pushes transmit the same [content] exactly when
    [Buffer.from] gave the same bytes for their contents.  For two
    strings without lone surrogates that means the same string; a lone
    surrogate is transmitted as U+FFFD and so collides with it. *)
Theorem transmitted_content_same_bytes (node : ObjectBytes)
    (upstream upstream' : Upstream) (args args' : GithubToolArguments)
    (r r' : Request) :
  In r (fst (invoke upstream (CallTool node "push_to_repo" (Some args)))) ->
  In r' (fst (invoke upstream' (CallTool node "push_to_repo" (Some args')))) ->
  method r = PUT ->
  method r' = PUT ->
  exists bytes bytes',
    Buffer_from_value node (assoc "content" args) = inr bytes
    /\ Buffer_from_value node (assoc "content" args') = inr bytes'
    /\ (option_map (assoc "content") (body r)
          = option_map (assoc "content") (body r')
        <-> bytes = bytes')
    /\ (forall input input',
          assoc "content" args = Some (JStr input) ->
          assoc "content" args' = Some (JStr input') ->
          lone_surrogate_free input = true ->
          lone_surrogate_free input' = true ->
          (bytes = bytes' <-> input = input')).
Proof.
  intros Hin Hin' Hput Hput'.
  destruct (push_to_repo_calls node upstream _ r Hin Hput)
    as (a & target & bytes & sha & Ha & _ & Hbytes & _ & ->).
  destruct (push_to_repo_calls node upstream' _ r' Hin' Hput')
    as (a' & target' & bytes' & sha' & Ha' & _ & Hbytes' & _ & ->).
  injection Ha as <-. injection Ha' as <-.
  exists bytes, bytes'. split; [exact Hbytes |]. split; [exact Hbytes' |]. split.
  - cbn [body put_request option_map]. unfold put_body.
    cbn [assoc String.eqb Ascii.eqb Bool.eqb]. split.
    + intro H. injection H as H. apply base64_of_bytes_injective. exact H.
    + intros ->. reflexivity.
  - intros input input' Hinput Hinput' Hfree Hfree'.
    rewrite Hinput in Hbytes. rewrite Hinput' in Hbytes'.
    cbn [Buffer_from_value] in Hbytes, Hbytes'.
    injection Hbytes as <-. injection Hbytes' as <-.
    rewrite (Buffer_from_faithful input Hfree), (Buffer_from_faithful input' Hfree').
    split; [apply list_byte_of_string_injective | intros ->; reflexivity].
Qed.

Lemma transmitted_content_same_bytes_witness :
  lone_high <> replacement_character
  /\ option_map (assoc "content")
       (body (put_request readme_url
                [("repo_name", JStr "site"); ("file_path", JStr "docs/README.md");
                 ("content", JStr lone_high)]
                replacement undefined))
     = option_map (assoc "content")
         (body (put_request readme_url
                  [("repo_name", JStr "site"); ("file_path", JStr "docs/README.md");
                   ("content", JStr replacement_character)]
                  replacement undefined)).
Proof.
  split; [discriminate |].
  pose (u := scripted octocat not_found written).
  pose (a := [("repo_name", JStr "site"); ("file_path", JStr "docs/README.md");
              ("content", JStr lone_high)]).
  pose (a' := [("repo_name", JStr "site"); ("file_path", JStr "docs/README.md");
               ("content", JStr replacement_character)]).
  assert (Hin : In (put_request readme_url a replacement undefined)
                  (fst (invoke u (CallTool strings_only "push_to_repo" (Some a)))))
    by (vm_compute; auto).
  assert (Hin' : In (put_request readme_url a' replacement undefined)
                   (fst (invoke u (CallTool strings_only "push_to_repo" (Some a')))))
    by (vm_compute; auto).
  destruct (transmitted_content_same_bytes strings_only u u a a'
              (put_request readme_url a replacement undefined)
              (put_request readme_url a' replacement undefined)
              Hin Hin' eq_refl eq_refl)
    as (bytes & bytes' & Hb & Hb' & Hiff & _).
  injection Hb as <-. injection Hb' as <-.
  exact (proj2 Hiff eq_refl).
Defined.
